(** * mod_ibmnet (AIX): rate computation and fault isolation of the
      Ganglia gmond module [gmond/modules/ibmnet/mod_ibmnet-aix.c]

    The development embeds the module's global tables, [read_device], the
    four metric functions and [ibmnet_metric_init] as state-passing
    functions and proves the properties of the rate tracker, the resample
    threshold and the SIGALRM fault isolation.

    - A C [double] is an IEEE 754 binary64 number: [spec_float] with the
      operations of the Standard Library's [SpecFloat] at precision 53 and
      [emax] 1024.
    - A C [long long] is a [Z] with the two's complement wrap-around of 64
      bits written out.
    - The arrays [netif_devices], [netif_bytes_received], ... are lists,
      read with [!!] and rewritten in place with [alter]; an index outside
      the array is undefined in C and makes the embedded function return
      [None]. *)

From Stdlib Require Import ZArith Lia Bool Ascii String.
From Stdlib Require Import Floats.SpecFloat.
From stdpp Require Import base option list.

Local Open Scope Z_scope.

(** ** C doubles *)

Module Double.

Definition prec : Z := 53.
Definition emax : Z := 1024.

Definition double : Type := spec_float.

Definition div : double -> double -> double := SFdiv prec emax.
Definition sub : double -> double -> double := SFsub prec emax.
Definition ltb : double -> double -> bool := SFltb.
Definition leb : double -> double -> bool := SFleb.

(** [a > b] and [a >= b] of C. *)
Definition gtb (a b : double) : bool := ltb b a.
Definition geb (a b : double) : bool := leb b a.

(** The conversion [(double) z] of an integer, rounding to nearest even. *)
Definition of_Z (z : Z) : double := binary_normalize prec emax z 0 false.

Definition zero : double := S754_zero false.                      (* 0.0 *)
Definition one : double := S754_finite false 4503599627370496 (-52).  (* 1.0 *)
Definition five : double := S754_finite false 5629499534213120 (-50). (* 5.0 *)
Definition minus_one : double := S754_finite true 4503599627370496 (-52). (* -1.0 *)

(** [x >= 0.0]: false on a NaN. *)
Definition nonneg (x : double) : bool := geb x zero.

Definition is_finite (x : double) : bool :=
  match x with
  | S754_zero _ | S754_finite _ _ _ => true
  | _ => false
  end.

End Double.

Import Double.

(** ** C long long *)

Definition LLONG_MAX : Z := 9223372036854775807.
Definition LLONG_MIN : Z := -9223372036854775808.

Definition in_ll (z : Z) : Prop := LLONG_MIN <= z <= LLONG_MAX.

(** Two's complement reduction of a mathematical result to 64 bits. *)
Definition wrap_ll (z : Z) : Z := (z - LLONG_MIN) mod 2 ^ 64 + LLONG_MIN.

(** [a - b] in [long long]. *)
Definition sub_ll (a b : Z) : Z := wrap_ll (a - b).


(** ** The fragment of libc that [read_device] uses on its buffer

    A C string is a [string] without the terminating NUL. *)

Definition isspace (c : ascii) : bool :=
  match c with
  | " " | "009" | "010" | "011" | "012" | "013" => true
  | _ => false
  end%char.

Definition digit_val (c : ascii) : option Z :=
  let n := Z.of_N (N_of_ascii c) in
  if (48 <=? n) && (n <=? 57) then Some (n - 48) else None.

Fixpoint skip_spaces (s : string) : string :=
  match s with
  | String c r => if isspace c then skip_spaces r else s
  | EmptyString => s
  end.

Fixpoint read_digits (s : string) (acc : Z) : Z :=
  match s with
  | String c r =>
      match digit_val c with
      | Some d => read_digits r (10 * acc + d)
      | None => acc
      end
  | EmptyString => acc
  end.

(** [strtoll( s, NULL, 10 )]: leading white space, an optional sign, the
    longest run of decimal digits (0 when there is none), clamped to the
    range of [long long]. *)
Definition strtoll (nptr : string) : Z :=
  match skip_spaces nptr with
  | String "-"%char r => Z.max LLONG_MIN (- read_digits r 0)
  | String "+"%char r => Z.min LLONG_MAX (read_digits r 0)
  | s => Z.min LLONG_MAX (read_digits s 0)
  end.

(** [if (strlen( buf ) > 0) buf[strlen( buf ) - 1] = '\0';] *)
Fixpoint truncate_last (buf : string) : string :=
  match buf with
  | EmptyString => EmptyString
  | String _ EmptyString => EmptyString
  | String a r => String a (truncate_last r)
  end.

(** [p = index( buf, c );  buf[p - buf] = '\0';] leaves the text before the
    first [c] in [buf] and the text after it at [p + 1].  Without a [c] in
    [buf], [p] is NULL and the store is undefined: [None]. *)
Fixpoint index_split (c : ascii) (buf : string) : option (string * string) :=
  match buf with
  | EmptyString => None
  | String a r =>
      if Ascii.eqb a c then Some (EmptyString, r)
      else '(h, t) ← index_split c r; Some (String a h, t)
  end.

(** One line of the pipeline's output, read into the two numbers on it. *)
Definition parse_line (buf : string) : option (Z * Z) :=
  '(h, t) ← index_split " "%char (truncate_last buf);
  Some (strtoll h, strtoll t).

(** ** What one run of the entstat pipeline looks like to [read_device] *)

(** The result of [popen]: NULL, or a stream from which successive [fgets]
    calls return the given C strings and then NULL. *)
Inductive popen_result :=
| popen_NULL
| popen_stream (lines : list string).

(** Either SIGALRM is delivered between [alarm( 5 )] and [alarm( 0 )], or
    the pipeline is read to the end of the block before. *)
Inductive entstat_run :=
| SIGALRM_fired
| entstat_done (f : popen_result).

Record counters := {
  c_bytes_received : Z;
  c_bytes_sent : Z;
  c_pkts_received : Z;
  c_pkts_sent : Z
}.

Definition no_counters : counters :=
  {| c_bytes_received := -1; c_bytes_sent := -1;
     c_pkts_received := -1; c_pkts_sent := -1 |}.

(** Lines 264-299 of the source: the four locals after the parsing block. *)
Definition read_counters (f : popen_result) : option counters :=
  match f with
  | popen_NULL => Some no_counters
  | popen_stream [] => Some no_counters
  | popen_stream (l1 :: rest) =>
      '(ps, pr) ← parse_line l1;
      match rest with
      | [] =>
          Some {| c_bytes_received := -1; c_bytes_sent := -1;
                  c_pkts_received := pr; c_pkts_sent := ps |}
      | l2 :: _ =>
          '(bs, br) ← parse_line l2;
          Some {| c_bytes_received := br; c_bytes_sent := bs;
                  c_pkts_received := pr; c_pkts_sent := ps |}
      end
  end.

(** ** The module's data *)

Record netif_devices_t := {
  enabled : bool;
  last_read : double;
  threshold : double;
  devName : string
}.

Record net_perf_data_t := {
  last_value : double;
  curr_value : double;
  last_total_value : Z
}.

Inductive metric_kind := BYTES_RECEIVED | BYTES_SENT | PKTS_RECEIVED | PKTS_SENT.

(** The file-scope variables of the module.  [entstat_calls] is not in the
    source: it records the device index of every entry into [read_device],
    most recent first, so that the number of sampler invocations can be
    stated. *)
Record module_state := {
  netif_devices : list netif_devices_t;
  netif_bytes_received : list net_perf_data_t;
  netif_bytes_sent : list net_perf_data_t;
  netif_pkts_received : list net_perf_data_t;
  netif_pkts_sent : list net_perf_data_t;
  Signal_devIndex : Z;
  entstat_calls : list nat
}.

Definition MIN_THRESHOLD : double := five.

Definition table (k : metric_kind) (st : module_state) : list net_perf_data_t :=
  match k with
  | BYTES_RECEIVED => netif_bytes_received st
  | BYTES_SENT => netif_bytes_sent st
  | PKTS_RECEIVED => netif_pkts_received st
  | PKTS_SENT => netif_pkts_sent st
  end.

Definition counter (k : metric_kind) (c : counters) : Z :=
  match k with
  | BYTES_RECEIVED => c_bytes_received c
  | BYTES_SENT => c_bytes_sent c
  | PKTS_RECEIVED => c_pkts_received c
  | PKTS_SENT => c_pkts_sent c
  end.

Definition set_devices (ds : list netif_devices_t) (st : module_state) : module_state :=
  {| netif_devices := ds;
     netif_bytes_received := netif_bytes_received st;
     netif_bytes_sent := netif_bytes_sent st;
     netif_pkts_received := netif_pkts_received st;
     netif_pkts_sent := netif_pkts_sent st;
     Signal_devIndex := Signal_devIndex st;
     entstat_calls := entstat_calls st |}.

Definition set_enabled (b : bool) (d : netif_devices_t) : netif_devices_t :=
  {| enabled := b; last_read := last_read d;
     threshold := threshold d; devName := devName d |}.

Definition set_last_read (t : double) (d : netif_devices_t) : netif_devices_t :=
  {| enabled := enabled d; last_read := t;
     threshold := threshold d; devName := devName d |}.

Definition set_curr_value (v : double) (p : net_perf_data_t) : net_perf_data_t :=
  {| last_value := last_value p; curr_value := v;
     last_total_value := last_total_value p |}.

(** The element [a[i]] rewritten in place by [f]; an index outside the
    array is undefined. *)
Definition array_modify {A} (f : A -> A) (i : nat) (a : list A) : option (list A) :=
  _ ← a !! i; Some (alter f i a).

(** ** The signal handler and [read_device] *)

(** [my_sig_handler( SIGALRM )]: the flag of the device that
    [Signal_devIndex] names is cleared; the [longjmp] that follows makes
    [read_device] return at once. *)
Definition my_sig_handler (st : module_state) : option module_state :=
  if Signal_devIndex st <? 0 then None
  else
    ds ← array_modify (set_enabled false) (Z.to_nat (Signal_devIndex st))
                      (netif_devices st);
    Some (set_devices ds st).

(** The block that [read_device] repeats for each counter that is not -1:
    the rate tracker's update. *)
Definition rate_update (raw : Z) (delta_t : double) (p : net_perf_data_t)
  : net_perf_data_t :=
  let delta := sub_ll raw (last_total_value p) in
  let curr := if delta <? 0 then last_value p else div (of_Z delta) delta_t in
  {| last_value := curr; curr_value := curr; last_total_value := raw |}.

(** [if (raw != -1LL) { ... }] on one of the four arrays. *)
Definition update_table (raw : Z) (delta_t : double) (devIndex : nat)
    (t : list net_perf_data_t) : option (list net_perf_data_t) :=
  if raw =? -1 then Some t else array_modify (rate_update raw delta_t) devIndex t.

Definition enter_read_device (devIndex : nat) (st : module_state) : module_state :=
  {| netif_devices := netif_devices st;
     netif_bytes_received := netif_bytes_received st;
     netif_bytes_sent := netif_bytes_sent st;
     netif_pkts_received := netif_pkts_received st;
     netif_pkts_sent := netif_pkts_sent st;
     Signal_devIndex := Z.of_nat devIndex;
     entstat_calls := devIndex :: entstat_calls st |}.

Definition read_device (devIndex : nat) (delta_t now : double)
    (run : entstat_run) (st : module_state) : option module_state :=
  let st := enter_read_device devIndex st in
  match run with
  | SIGALRM_fired => my_sig_handler st
  | entstat_done f =>
      _ ← netif_devices st !! devIndex;
      c ← read_counters f;
      br ← update_table (c_bytes_received c) delta_t devIndex (netif_bytes_received st);
      bs ← update_table (c_bytes_sent c) delta_t devIndex (netif_bytes_sent st);
      pr ← update_table (c_pkts_received c) delta_t devIndex (netif_pkts_received st);
      ps ← update_table (c_pkts_sent c) delta_t devIndex (netif_pkts_sent st);
      ds ← array_modify (set_last_read now) devIndex (netif_devices st);
      Some {| netif_devices := ds;
              netif_bytes_received := br;
              netif_bytes_sent := bs;
              netif_pkts_received := pr;
              netif_pkts_sent := ps;
              Signal_devIndex := Signal_devIndex st;
              entstat_calls := entstat_calls st |}
  end.

(** ** The metric functions *)

(** [time_diff]: [now] is the reading of [get_current_time]. *)
Definition time_diff (d : netif_devices_t) (now : double) : double :=
  sub now (last_read d).

(** The body shared by the four metric functions; they differ in the array
    they return from. *)
Definition netif_func (k : metric_kind) (netif_index : nat) (now : double)
    (run : entstat_run) (st : module_state) : option (double * module_state) :=
  d ← netif_devices st !! netif_index;
  if enabled d then
    let delta_t := time_diff d now in
    st' ← (if gtb delta_t (threshold d)
           then read_device netif_index delta_t now run st
           else Some st);
    p ← table k st' !! netif_index;
    Some (curr_value p, st')
  else Some (minus_one, st).

Definition netif_bytes_received_func := netif_func BYTES_RECEIVED.
Definition netif_bytes_sent_func := netif_func BYTES_SENT.
Definition netif_pkts_received_func := netif_func PKTS_RECEIVED.
Definition netif_pkts_sent_func := netif_func PKTS_SENT.

(** ** Initialisation *)

(** The devices that lsdev lists as Available; [malloc] leaves [last_read]
    with whatever [heap] holds. *)
Definition detect_and_verify_netif_devices (lsdev : list string)
    (heap : nat -> double) : list netif_devices_t :=
  imap (fun i name => {| enabled := true; last_read := heap i;
                         threshold := MIN_THRESHOLD; devName := name |}) lsdev.

(** The array that [init_metric] returns: [apr_pcalloc] fills it with zero
    bytes. *)
Definition init_metric (netif_count : nat) : list net_perf_data_t :=
  replicate netif_count
    {| last_value := zero; curr_value := zero; last_total_value := 0 |}.

(** The four assignments [netif_...[i].curr_value = 0.0]. *)
Definition zero_curr_values (i : nat) (st : module_state) : option module_state :=
  br ← array_modify (set_curr_value zero) i (netif_bytes_received st);
  bs ← array_modify (set_curr_value zero) i (netif_bytes_sent st);
  pr ← array_modify (set_curr_value zero) i (netif_pkts_received st);
  ps ← array_modify (set_curr_value zero) i (netif_pkts_sent st);
  Some {| netif_devices := netif_devices st;
          netif_bytes_received := br;
          netif_bytes_sent := bs;
          netif_pkts_received := pr;
          netif_pkts_sent := ps;
          Signal_devIndex := Signal_devIndex st;
          entstat_calls := entstat_calls st |}.

(** One iteration of the last loop of [ibmnet_metric_init]. *)
Definition init_device (i : nat) (now : double) (run : entstat_run)
    (st : module_state) : option module_state :=
  st1 ← read_device i one now run st;
  zero_curr_values i st1.

(** [for (i = ...;  i < netif_count;  i++)] with [todo] iterations left;
    [runs i] is what entstat does for device [i]. *)
Fixpoint init_loop (todo i : nat) (now : double) (runs : nat -> entstat_run)
    (st : module_state) : option module_state :=
  match todo with
  | O => Some st
  | S todo' =>
      st' ← init_device i now (runs i) st;
      init_loop todo' (S i) now runs st'
  end.

Definition ibmnet_metric_init (lsdev : list string) (heap : nat -> double)
    (now : double) (runs : nat -> entstat_run) : option module_state :=
  let ds := detect_and_verify_netif_devices lsdev heap in
  let netif_count := length ds in
  init_loop netif_count 0 now runs
    {| netif_devices := ds;
       netif_bytes_received := init_metric netif_count;
       netif_bytes_sent := init_metric netif_count;
       netif_pkts_received := init_metric netif_count;
       netif_pkts_sent := init_metric netif_count;
       Signal_devIndex := -1;
       entstat_calls := [] |}.

(** ** The host's calls *)

(** One call of a metric function by gmond: which function, for which
    device, what the clock reads and what entstat does if it is run. *)
Record call := {
  call_kind : metric_kind;
  call_index : nat;
  call_now : double;
  call_run : entstat_run
}.

Definition do_call (c : call) (st : module_state) : option (double * module_state) :=
  netif_func (call_kind c) (call_index c) (call_now c) (call_run c) st.

(** A sequence of calls; the values returned, in order, and the last state. *)
Fixpoint do_calls (cs : list call) (st : module_state)
  : option (list double * module_state) :=
  match cs with
  | [] => Some ([], st)
  | c :: cs' =>
      '(v, st1) ← do_call c st;
      '(vs, st2) ← do_calls cs' st1;
      Some (v :: vs, st2)
  end.

(** ** Well-formed states and inputs *)

Definition all_kinds : list metric_kind :=
  [BYTES_RECEIVED; BYTES_SENT; PKTS_RECEIVED; PKTS_SENT].

(** The four arrays hold one element per device. *)
Definition wf_state (st : module_state) : Prop :=
  forall k, length (table k st) = length (netif_devices st).

(** A raw counter that is available (not the -1 of a read that failed) is
    not negative. *)
Definition nonneg_raw (raw : Z) : bool := (raw =? -1) || (0 <=? raw).

Definition nonneg_counters (c : counters) : bool :=
  forallb (fun k => nonneg_raw (counter k c)) all_kinds.

(** The pipeline's output has a space on each line read, so that
    [read_device] is defined on it. *)
Definition parses (run : entstat_run) : bool :=
  match run with
  | SIGALRM_fired => true
  | entstat_done f => bool_decide (is_Some (read_counters f))
  end.

Definition nonneg_run (run : entstat_run) : bool :=
  match run with
  | SIGALRM_fired => true
  | entstat_done f =>
      match read_counters f with
      | Some c => nonneg_counters c
      | None => true
      end
  end.

(** What [read_device] leaves in one array when the pipeline was read: *)
Definition sampled_table (raw : Z) (delta_t : double) (devIndex : nat)
    (t : list net_perf_data_t) : list net_perf_data_t :=
  if raw =? -1 then t else alter (rate_update raw delta_t) devIndex t.

(** The state in which [read_device] returns when the pipeline was read
    and gave the counters [c], and the one in which it returns after
    SIGALRM; [read_device_done] and [read_device_alarm] below show that
    these are its results. *)
Definition sampled_state (devIndex : nat) (delta_t now : double) (c : counters)
    (st : module_state) : module_state :=
  {| netif_devices := alter (set_last_read now) devIndex (netif_devices st);
     netif_bytes_received :=
       sampled_table (c_bytes_received c) delta_t devIndex (netif_bytes_received st);
     netif_bytes_sent :=
       sampled_table (c_bytes_sent c) delta_t devIndex (netif_bytes_sent st);
     netif_pkts_received :=
       sampled_table (c_pkts_received c) delta_t devIndex (netif_pkts_received st);
     netif_pkts_sent :=
       sampled_table (c_pkts_sent c) delta_t devIndex (netif_pkts_sent st);
     Signal_devIndex := Z.of_nat devIndex;
     entstat_calls := devIndex :: entstat_calls st |}.

Definition disabled_state (devIndex : nat) (st : module_state) : module_state :=
  {| netif_devices := alter (set_enabled false) devIndex (netif_devices st);
     netif_bytes_received := netif_bytes_received st;
     netif_bytes_sent := netif_bytes_sent st;
     netif_pkts_received := netif_pkts_received st;
     netif_pkts_sent := netif_pkts_sent st;
     Signal_devIndex := Z.of_nat devIndex;
     entstat_calls := devIndex :: entstat_calls st |}.

(** [x] is a zero, a finite number or an infinity of sign [s]. *)
Definition signed_as (s : bool) (x : double) : Prop :=
  match x with
  | S754_zero s' | S754_infinity s' | S754_finite s' _ _ => s' = s
  | S754_nan => False
  end.

(** What a metric function that returned has done. *)
Inductive netif_func_path (k : metric_kind) (i : nat) (now : double)
    (run : entstat_run) (st : module_state) (v : double) (st' : module_state)
  : Prop :=
| path_disabled d :
    netif_devices st !! i = Some d -> enabled d = false ->
    v = minus_one -> st' = st ->
    netif_func_path k i now run st v st'
| path_cached d p :
    netif_devices st !! i = Some d -> enabled d = true ->
    gtb (time_diff d now) (threshold d) = false ->
    table k st !! i = Some p -> v = curr_value p -> st' = st ->
    netif_func_path k i now run st v st'
| path_resample d p :
    netif_devices st !! i = Some d -> enabled d = true ->
    gtb (time_diff d now) (threshold d) = true ->
    read_device i (time_diff d now) now run st = Some st' ->
    table k st' !! i = Some p -> v = curr_value p ->
    netif_func_path k i now run st v st'.

(** The state is as the code keeps it when raw counters are not negative:
    every threshold is [MIN_THRESHOLD], every [last_total_value] is in
    [0, LLONG_MAX] and every [last_value] satisfies [>= 0.0]. *)
Definition thresholds_ok (st : module_state) : Prop :=
  forall i d, netif_devices st !! i = Some d -> threshold d = MIN_THRESHOLD.

Definition rate_ok (p : net_perf_data_t) : Prop :=
  0 <= last_total_value p <= LLONG_MAX /\ nonneg (last_value p) = true.

Definition rates_ok (st : module_state) : Prop :=
  forall k i p, table k st !! i = Some p -> rate_ok p.

Definition state_ok (st : module_state) : Prop :=
  wf_state st /\ thresholds_ok st /\ rates_ok st.

(** What one iteration of the start-up loop makes of the rate state of
    kind [k] and of the record of its device ([init_device_lookup] below). *)
Definition init_perf (k : metric_kind) (run : entstat_run) (p : net_perf_data_t)
  : net_perf_data_t :=
  set_curr_value zero
    match run with
    | SIGALRM_fired => p
    | entstat_done f =>
        match read_counters f with
        | Some c => if counter k c =? -1 then p else rate_update (counter k c) one p
        | None => p
        end
    end.

Definition init_dev (now : double) (run : entstat_run) (d : netif_devices_t)
  : netif_devices_t :=
  match run with
  | SIGALRM_fired => set_enabled false d
  | entstat_done _ => set_last_read now d
  end.

(** [x] is a finite number with a mantissa of 53 digits. *)
Definition normal (x : double) : Prop :=
  match x with
  | S754_finite _ m e => Z.pos (digits2_pos m) = 53 /\ -1073 <= e <= 971
  | _ => False
  end.

(** ** Small runs *)

Module Demo.

Definition out (pkts bytes : string) : entstat_run :=
  entstat_done (popen_stream [pkts; bytes]).

Definition nl : string := String "010"%char EmptyString.

(** One adapter, 1000 bytes received at start-up. *)
Definition st0 : option module_state :=
  ibmnet_metric_init ["ent0"%string] (fun _ => S754_nan) (of_Z 100)
    (fun _ => out ("7 9" ++ nl) ("500 1000" ++ nl)).

Definition c1 : call :=
  {| call_kind := BYTES_RECEIVED; call_index := 0; call_now := of_Z 103;
     call_run := SIGALRM_fired |}.
Definition c2 : call :=
  {| call_kind := BYTES_RECEIVED; call_index := 0; call_now := of_Z 110;
     call_run := out ("8 10" ++ nl) ("600 3000" ++ nl) |}.
Definition c3 : call :=
  {| call_kind := BYTES_RECEIVED; call_index := 0; call_now := of_Z 120;
     call_run := out ("9 11" ++ nl) ("700 2500" ++ nl) |}.
Definition c4 : call :=
  {| call_kind := BYTES_SENT; call_index := 0; call_now := of_Z 130;
     call_run := SIGALRM_fired |}.
Definition c5 : call :=
  {| call_kind := PKTS_SENT; call_index := 0; call_now := of_Z 140;
     call_run := out ("9 11" ++ nl) ("700 2500" ++ nl) |}.

Definition no_devices : module_state :=
  {| netif_devices := []; netif_bytes_received := []; netif_bytes_sent := [];
     netif_pkts_received := []; netif_pkts_sent := [];
     Signal_devIndex := -1; entstat_calls := [] |}.

(** The state that [st0] holds, written out. *)
Definition after_init : module_state :=
  Eval vm_compute in default no_devices st0.

(** The adapter and its bytes_received element in [after_init]. *)
Definition ent0 : netif_devices_t :=
  {| enabled := true; last_read := of_Z 100; threshold := MIN_THRESHOLD;
     devName := "ent0" |}.
Definition ent0_bytes_received : net_perf_data_t :=
  {| last_value := of_Z 1000; curr_value := zero; last_total_value := 1000 |}.

Definition more : popen_result :=
  popen_stream ["8 10" ++ nl; "600 3000" ++ nl]%string.
Definition more_counters : counters :=
  {| c_bytes_received := 3000; c_bytes_sent := 600;
     c_pkts_received := 10; c_pkts_sent := 8 |}.
Definition fewer : popen_result :=
  popen_stream ["6 8" ++ nl; "400 800" ++ nl]%string.
Definition fewer_counters : counters :=
  {| c_bytes_received := 800; c_bytes_sent := 400;
     c_pkts_received := 8; c_pkts_sent := 6 |}.
Definition packets_only : popen_result := popen_stream ["8 10" ++ nl]%string.

(** [after_init] after the calls [c2] and [c3]. *)
Definition after_c2_c3 : module_state :=
  Eval vm_compute in
    default no_devices ('(_, st) ← do_calls [c2; c3] after_init; Some st).

(** [after_init] once SIGALRM has disabled the adapter. *)
Definition after_alarm : module_state := disabled_state 0 after_init.

End Demo.

(** ** Metric definitions and [ibmnet_metric_handler] *)

Definition kind_name (k : metric_kind) : string :=
  match k with
  | BYTES_RECEIVED => "bytes_received"
  | BYTES_SENT => "bytes_sent"
  | PKTS_RECEIVED => "pkts_received"
  | PKTS_SENT => "pkts_sent"
  end.

Definition kind_desc (k : metric_kind) : string :=
  match k with
  | BYTES_RECEIVED => "Bytes Received"
  | BYTES_SENT => "Bytes Sent"
  | PKTS_RECEIVED => "Packets Received"
  | PKTS_SENT => "Packets Sent"
  end.

Definition kind_units (k : metric_kind) : string :=
  match k with
  | BYTES_RECEIVED | BYTES_SENT => "bytes/sec"
  | PKTS_RECEIVED | PKTS_SENT => "packets/sec"
  end.

(** The place of a kind's block of definitions in [metric_info]: the order
    of the four [init_metric] calls. *)
Definition kind_pos (k : metric_kind) : nat :=
  match k with
  | BYTES_RECEIVED => 0
  | BYTES_SENT => 1
  | PKTS_RECEIVED => 2
  | PKTS_SENT => 3
  end.

Inductive Ganglia_value_types := GANGLIA_VALUE_DOUBLE.

(** The fields of a metric definition that [init_metric] assigns. *)
Record Ganglia_25metric := {
  gmi_name : string;
  gmi_tmax : Z;
  gmi_type : Ganglia_value_types;
  gmi_units : string;
  gmi_slope : string;
  gmi_fmt : string;
  gmi_msg_size : Z;
  gmi_desc : string
}.

(** The definitions that one call of [init_metric] pushes, one per device;
    [udp_header_size] stands for the constant UDP_HEADER_SIZE of the
    gmond headers. *)
Definition init_metric_info (udp_header_size : Z) (devs : list netif_devices_t)
    (name desc units : string) : list Ganglia_25metric :=
  map (fun d =>
         {| gmi_name := devName d ++ "_" ++ name;
            gmi_tmax := 60;
            gmi_type := GANGLIA_VALUE_DOUBLE;
            gmi_units := units;
            gmi_slope := "both";
            gmi_fmt := "%.1f";
            gmi_msg_size := udp_header_size + 16;
            gmi_desc := devName d ++ " " ++ desc |})
      devs.

Definition kind_metric_info (udp_header_size : Z) (devs : list netif_devices_t)
    (k : metric_kind) : list Ganglia_25metric :=
  init_metric_info udp_header_size devs (kind_name k) (kind_desc k) (kind_units k).

(** [ibmnet_module.metrics_info] as [ibmnet_metric_init] leaves it: the four
    blocks and the terminator, a zeroed slot whose name is NULL ([None]). *)
Definition ibmnet_metrics_info (udp_header_size : Z) (devs : list netif_devices_t)
  : list (option Ganglia_25metric) :=
  (Some <$> (kind_metric_info udp_header_size devs BYTES_RECEIVED
             ++ kind_metric_info udp_header_size devs BYTES_SENT
             ++ kind_metric_info udp_header_size devs PKTS_RECEIVED
             ++ kind_metric_info udp_header_size devs PKTS_SENT))
  ++ [None].

(** The union [g_val_t], by the member that was assigned. *)
Inductive g_val_t :=
| val_double (d : double)
| val_uint32 (n : Z).

(** The search loop of the handler: the first device of that name. *)
Fixpoint find_device (name : string) (devs : list netif_devices_t) : option nat :=
  match devs with
  | [] => None
  | d :: rest =>
      if String.eqb name (devName d) then Some 0%nat
      else S <$> find_device name rest
  end.

Definition val_of (r : option (double * module_state))
  : option (g_val_t * module_state) :=
  '(v, st') ← r; Some (val_double v, st').

(** [ibmnet_metric_handler]: a name that does not fit [char name[256]], a
    NULL name and a name without an underscore are undefined. *)
Definition ibmnet_metric_handler (metrics_info : list (option Ganglia_25metric))
    (metric_index : nat) (now : double) (run : entstat_run) (st : module_state)
  : option (g_val_t * module_state) :=
  slot ← metrics_info !! metric_index;
  gmi ← slot;
  if 256 <=? Z.of_nat (String.length (gmi_name gmi)) then None
  else
    '(name, p) ← index_split "_"%char (gmi_name gmi);
    match find_device name (netif_devices st) with
    | None => Some (val_uint32 0, st)
    | Some devIndex =>
        if String.eqb p "bytes_received"
        then val_of (netif_bytes_received_func devIndex now run st)
        else if String.eqb p "bytes_sent"
        then val_of (netif_bytes_sent_func devIndex now run st)
        else if String.eqb p "pkts_received"
        then val_of (netif_pkts_received_func devIndex now run st)
        else if String.eqb p "pkts_sent"
        then val_of (netif_pkts_sent_func devIndex now run st)
        else Some (val_uint32 0, st)
    end.

Fixpoint has_char (c : ascii) (s : string) : bool :=
  match s with
  | EmptyString => false
  | String a r => Ascii.eqb a c || has_char c r
  end.

(** ** Device detection from the two lsdev pipelines *)

Definition INT_MAX : Z := 2147483647.
Definition INT_MIN : Z := -2147483648.

(** [atoi( s )]: as [strtoll], without a result when the number does not
    fit an [int] (undefined in C). *)
Definition atoi (nptr : string) : option Z :=
  let n := match skip_spaces nptr with
           | String "-"%char r => - read_digits r 0
           | String "+"%char r => read_digits r 0
           | s => read_digits s 0
           end in
  if (INT_MIN <=? n) && (n <=? INT_MAX) then Some n else None.

(** The loop that fills [netif_devices]: [count] iterations left, at index
    [i].  The result of [fgets] is not tested: at the end of the stream
    [buf] keeps what it held.  [max_g_string_size] stands for the constant
    MAX_G_STRING_SIZE, the size of [devName]; a longer name overflows it. *)
Fixpoint read_device_names (max_g_string_size : nat) (count i : nat) (buf : string)
    (lines : list string) (heap : nat -> double) : option (list netif_devices_t) :=
  match count with
  | O => Some []
  | S count' =>
      let buf := match lines with l :: _ => l | [] => buf end in
      let buf := truncate_last buf in
      if (max_g_string_size <=? String.length buf)%nat then None
      else
        rest ← read_device_names max_g_string_size count' (S i) buf (tail lines) heap;
        Some ({| enabled := true; last_read := heap i;
                 threshold := MIN_THRESHOLD; devName := buf |} :: rest)
  end.

(** [detect_and_verify_netif_devices] on the results of its two [popen]
    calls ([wc]: the pipeline that counts, [ls]: the one that lists): the
    value returned and the array [netif_devices] ([[]] for NULL).  [malloc]
    is taken to succeed; a negative count is left undefined. *)
Definition detect_and_verify_popen (max_g_string_size : nat)
    (wc ls : popen_result) (heap : nat -> double)
  : option (Z * list netif_devices_t) :=
  match wc with
  | popen_NULL | popen_stream [] => Some (0, [])
  | popen_stream (buf :: _) =>
      count ← atoi buf;
      if count =? 0 then Some (0, [])
      else
        match ls with
        | popen_NULL => Some (0, [])
        | popen_stream lines =>
            if count <? 0 then None
            else
              devs ← read_device_names max_g_string_size (Z.to_nat count) 0 buf
                                       lines heap;
              Some (count, devs)
        end
  end.

(** ** Decimal text, to state what the parsing reads back *)

Definition newline : string := String "010"%char EmptyString.

(** The record that the detection loop writes at index [i]. *)
Definition new_device (heap : nat -> double) (i : nat) (name : string)
  : netif_devices_t :=
  {| enabled := true; last_read := heap i; threshold := MIN_THRESHOLD;
     devName := name |}.

Definition digit_char (d : Z) : ascii := ascii_of_N (Z.to_N (48 + d)).

Fixpoint digits_string (ds : list Z) : string :=
  match ds with
  | [] => EmptyString
  | d :: r => String (digit_char d) (digits_string r)
  end.

Definition digits_value (ds : list Z) : Z :=
  fold_left (fun acc d => 10 * acc + d) ds 0.

Definition is_digits (ds : list Z) : Prop := Forall (fun d => 0 <= d <= 9) ds.

(** A text that [strtoll] reads as 0: it does not start with white space, a
    sign or a digit. *)
Definition not_a_number (s : string) : bool :=
  match s with
  | EmptyString => true
  | String c _ =>
      negb (isspace c) && negb (Ascii.eqb c "-") && negb (Ascii.eqb c "+")
      && match digit_val c with Some _ => false | None => true end
  end.

Module Demo2.

Definition nl : string := String "010"%char EmptyString.

Definition dev (name : string) : netif_devices_t :=
  {| enabled := true; last_read := of_Z 100; threshold := MIN_THRESHOLD;
     devName := name |}.

Definition quiet : net_perf_data_t :=
  {| last_value := zero; curr_value := zero; last_total_value := 0 |}.

(** Two adapters of the same name and one with an underscore in its name. *)
Definition three : module_state :=
  {| netif_devices := [dev "ent0"; dev "ent0"; dev "en_t2"];
     netif_bytes_received := [quiet; quiet; quiet];
     netif_bytes_sent := [quiet; quiet; quiet];
     netif_pkts_received := [quiet; quiet; quiet];
     netif_pkts_sent := [quiet; quiet; quiet];
     Signal_devIndex := -1;
     entstat_calls := [] |}.

Definition two : module_state :=
  {| netif_devices := [dev "ent0"; dev "ent1"];
     netif_bytes_received := [quiet; quiet];
     netif_bytes_sent := [quiet; quiet];
     netif_pkts_received := [quiet; quiet];
     netif_pkts_sent := [quiet; quiet];
     Signal_devIndex := -1;
     entstat_calls := [] |}.

Definition no_heap : nat -> double := fun _ => S754_nan.

Definition good_run : entstat_run :=
  entstat_done (popen_stream ["7 9" ++ nl; "500 1000" ++ nl]%string).

(** Start-up of two adapters, the first of which hangs. *)
Definition hang_first (i : nat) : entstat_run :=
  match i with
  | O => SIGALRM_fired
  | _ => good_run
  end.

Definition after_hang : module_state :=
  Eval vm_compute in
    default Demo.no_devices
      (ibmnet_metric_init ["ent0"; "ent1"]%string no_heap (of_Z 100) hang_first).

End Demo2.

(** * Facts *)

(** ** Checks of the embedding on concrete inputs *)

Example one_is_1 : of_Z 1 = one. Proof. reflexivity. Qed.
Example five_is_5 : of_Z 5 = five. Proof. reflexivity. Qed.
Example minus_one_is_m1 : of_Z (-1) = minus_one. Proof. reflexivity. Qed.
Example scenario_rate : div (of_Z (3000 - 1000)) five = of_Z 400.
Proof. vm_compute. reflexivity. Qed.

Example read_counters_ex :
  read_counters (popen_stream ["12 34
"; "5600 7800
"]%string)
  = Some {| c_bytes_received := 7800; c_bytes_sent := 5600;
            c_pkts_received := 34; c_pkts_sent := 12 |}.
Proof. reflexivity. Qed.

Example demo_values :
  (st ← Demo.st0; '(vs, _) ← do_calls [Demo.c1; Demo.c2; Demo.c3; Demo.c4; Demo.c5] st; Some vs)
  = Some [zero; of_Z 200; of_Z 200; of_Z 10; minus_one].
Proof. vm_compute. reflexivity. Qed.

(** ** Doubles: comparison and the sign of a rounded quotient *)

Lemma SFcompare_antisym a b :
  SFcompare b a = option_map CompOpp (SFcompare a b).
Proof.
  destruct a as [sa|sa| |sa ma ea], b as [sb|sb| |sb mb eb]; simpl;
    try destruct sa; try destruct sb; simpl; try reflexivity.
  - rewrite (Z.compare_antisym ea eb). destruct (ea ?= eb); simpl; try reflexivity.
    rewrite Pos.compare_cont_antisym. simpl. now rewrite CompOpp_involutive.
  - rewrite (Z.compare_antisym ea eb). destruct (ea ?= eb); simpl; try reflexivity.
    rewrite Pos.compare_cont_antisym. reflexivity.
Qed.

(** In C, [a <= b] excludes [a > b] (both are false on a NaN). *)
Lemma leb_not_gtb a b : leb a b = true -> gtb a b = false.
Proof.
  unfold leb, gtb, ltb, SFleb, SFltb. rewrite (SFcompare_antisym a b).
  destruct (SFcompare a b) as [[ | | ]|]; simpl; congruence.
Qed.

Lemma shr_1_nonneg mrs : 0 <= shr_m mrs -> 0 <= shr_m (shr_1 mrs).
Proof.
  destruct mrs as [m r s]; simpl. destruct m as [|[p|p|]|[p|p|]]; simpl; lia.
Qed.

Lemma shr_1_le mrs : 0 <= shr_m mrs -> shr_m (shr_1 mrs) <= shr_m mrs.
Proof.
  destruct mrs as [m r s]; simpl. destruct m as [|[p|p|]|[p|p|]]; simpl; lia.
Qed.

Lemma iter_pos_shr_1_nonneg p :
  forall mrs, 0 <= shr_m mrs -> 0 <= shr_m (SpecFloat.iter_pos shr_1 p mrs).
Proof. induction p; intros mrs H; simpl; auto using shr_1_nonneg. Qed.

Lemma iter_pos_shr_1_le p :
  forall mrs, 0 <= shr_m mrs -> shr_m (SpecFloat.iter_pos shr_1 p mrs) <= shr_m mrs.
Proof.
  induction p; intros mrs H; simpl.
  - pose proof (shr_1_nonneg _ H) as H0. pose proof (shr_1_le _ H).
    pose proof (iter_pos_shr_1_nonneg p _ H0) as H2. pose proof (IHp _ H0).
    pose proof (IHp _ H2). lia.
  - pose proof (iter_pos_shr_1_nonneg p _ H) as H0. pose proof (IHp _ H).
    pose proof (IHp _ H0). lia.
  - now apply shr_1_le.
Qed.

Lemma shr_record_of_loc_m m l : shr_m (shr_record_of_loc m l) = m.
Proof. destruct l as [|[]]; reflexivity. Qed.

Lemma shr_fexp_nonneg m e l : 0 <= m -> 0 <= shr_m (fst (shr_fexp prec emax m e l)).
Proof.
  intros H. unfold shr_fexp, shr.
  destruct (_ - e) as [|p|p]; simpl; rewrite ?shr_record_of_loc_m; try lia.
  apply iter_pos_shr_1_nonneg. now rewrite shr_record_of_loc_m.
Qed.

Lemma shr_fexp_le m e l : 0 <= m -> shr_m (fst (shr_fexp prec emax m e l)) <= m.
Proof.
  intros H. unfold shr_fexp, shr.
  destruct (_ - e) as [|p|p]; simpl; rewrite ?shr_record_of_loc_m; try lia.
  etransitivity; [apply iter_pos_shr_1_le|]; rewrite shr_record_of_loc_m; lia.
Qed.

Lemma shr_fexp_exp m e l :
  snd (shr_fexp prec emax m e l) = Z.max e (fexp prec emax (Zdigits2 m + e)).
Proof.
  unfold shr_fexp, shr. destruct (_ - e) as [|p|p] eqn:E; simpl; lia.
Qed.

Lemma round_nearest_even_nonneg m l : 0 <= m -> 0 <= round_nearest_even m l.
Proof. intros H. destruct l as [|[]]; simpl; try lia. destruct (Z.even m); lia. Qed.

Lemma round_nearest_even_le m l : round_nearest_even m l <= m + 1.
Proof. destruct l as [|[]]; simpl; try lia. destruct (Z.even m); lia. Qed.

(** Rounding a mantissa that is not negative gives a number of the sign
    asked for, never a NaN. *)
Lemma binary_round_aux_sign s m e l :
  0 <= m -> signed_as s (binary_round_aux prec emax s m e l).
Proof.
  intros H. unfold binary_round_aux.
  pose proof (shr_fexp_nonneg m e l H) as H1.
  destruct (shr_fexp prec emax m e l) as [mrs' e'] eqn:E1. simpl in H1.
  pose proof (shr_fexp_nonneg _ e' loc_Exact
                (round_nearest_even_nonneg _ (loc_of_shr_record mrs') H1)) as H2.
  destruct (shr_fexp prec emax _ e' loc_Exact) as [mrs'' e''] eqn:E2. simpl in H2.
  destruct (shr_m mrs'') as [|p|p]; simpl; try lia; auto.
  destruct (_ <=? _); reflexivity.
Qed.

Lemma digits2_pos_log2 p : Z.pos (digits2_pos p) = Z.log2 (Z.pos p) + 1.
Proof.
  assert (Hs : forall q, digits2_pos q = Pos.size q).
  { induction q; simpl; congruence. }
  destruct p; simpl; rewrite ?Hs; lia.
Qed.

Lemma Zdigits2_bound m k : 0 <= k -> 0 <= m < 2 ^ k -> Zdigits2 m <= k.
Proof.
  intros Hk [H0 Hm]. destruct m as [|p|p]; simpl; try lia.
  rewrite digits2_pos_log2.
  assert (Z.log2 (Z.pos p) < k) by (apply Z.log2_lt_pow2; lia). lia.
Qed.

(** A mantissa below [2 ^ 200] at an exponent that is not positive does
    not overflow. *)
Lemma binary_round_aux_finite s m e l k :
  0 <= k <= 200 -> 0 <= m < 2 ^ k -> e <= 0 ->
  is_finite (binary_round_aux prec emax s m e l) = true.
Proof.
  intros Hk Hm He. unfold binary_round_aux.
  pose proof (shr_fexp_nonneg m e l (proj1 Hm)) as H1.
  pose proof (shr_fexp_le m e l (proj1 Hm)) as H1'.
  pose proof (shr_fexp_exp m e l) as E1'.
  destruct (shr_fexp prec emax m e l) as [mrs' e'] eqn:E1. simpl in H1, H1', E1'.
  set (m1 := round_nearest_even (shr_m mrs') (loc_of_shr_record mrs')).
  assert (Hm1 : 0 <= m1 < 2 ^ (k + 1)).
  { split; [now apply round_nearest_even_nonneg|].
    pose proof (round_nearest_even_le (shr_m mrs') (loc_of_shr_record mrs')) as H.
    fold m1 in H. rewrite Z.pow_add_r by lia. lia. }
  pose proof (shr_fexp_nonneg m1 e' loc_Exact (proj1 Hm1)) as H2.
  pose proof (shr_fexp_exp m1 e' loc_Exact) as E2'.
  destruct (shr_fexp prec emax m1 e' loc_Exact) as [mrs'' e''] eqn:E2.
  simpl in H2, E2'.
  pose proof (Zdigits2_bound m k ltac:(lia) Hm).
  pose proof (Zdigits2_bound m1 (k + 1) ltac:(lia) Hm1).
  assert (e'' <= 971) by (unfold fexp, emin, prec, emax in *; lia).
  destruct (shr_m mrs'') as [|p|p]; try lia; auto.
  replace (e'' <=? emax - prec) with true; [reflexivity|].
  symmetry. apply Z.leb_le. unfold emax, prec. lia.
Qed.

Lemma pos_iter_xO m d : Z.pos (Pos.iter xO m d) = Z.pos m * 2 ^ Z.pos d.
Proof.
  revert m. induction d using Pos.peano_ind; intros m.
  - simpl. lia.
  - rewrite Pos.iter_succ, Pos2Z.inj_succ, Z.pow_succ_r by lia.
    rewrite Pos2Z.inj_xO, IHd. lia.
Qed.

(** The conversion of a [long long] that is not negative is finite and not
    negative. *)
Lemma of_Z_finite z :
  0 <= z <= LLONG_MAX -> is_finite (of_Z z) = true /\ signed_as false (of_Z z).
Proof.
  intros Hz. assert (Hz' : 0 <= z < 2 ^ 63) by (unfold LLONG_MAX in Hz; lia).
  clear Hz. unfold of_Z, binary_normalize.
  destruct z as [|p|p]; try lia; [split; reflexivity|].
  unfold binary_round.
  pose proof (Zdigits2_bound (Z.pos p) 63 ltac:(lia) Hz') as Hd. simpl in Hd.
  assert (Hf : -52 <= fexp prec emax (Z.pos (digits2_pos p) + 0) <= 10)
    by (unfold fexp, emin, prec, emax; lia).
  unfold shl_align.
  destruct (fexp prec emax (Z.pos (digits2_pos p) + 0) - 0) as [|d|d] eqn:E.
  - split; [apply binary_round_aux_finite with (k := 63)|apply binary_round_aux_sign]; lia.
  - split; [apply binary_round_aux_finite with (k := 63)|apply binary_round_aux_sign]; lia.
  - assert (Z.pos d <= 52) by lia.
    split; [apply binary_round_aux_finite with (k := 115)|apply binary_round_aux_sign];
      try lia.
    rewrite pos_iter_xO. split; [lia|].
    replace 115 with (63 + 52) by lia. rewrite Z.pow_add_r by lia.
    assert (2 ^ Z.pos d <= 2 ^ 52) by (apply Z.pow_le_mono_r; lia).
    nia.
Qed.

Lemma signed_false_nonneg x : signed_as false x -> nonneg x = true.
Proof.
  destruct x as [s|s| |s m e]; simpl; intros H; try subst s;
    try reflexivity; contradiction.
Qed.

Lemma positive_cases x :
  gtb x zero = true ->
  x = S754_infinity false \/ exists m e, x = S754_finite false m e.
Proof.
  destruct x as [s|s| |s m e]; try destruct s; cbn; try discriminate; intros _;
    [now left | right; eauto].
Qed.

Lemma div_sign x y :
  is_finite x = true -> signed_as false x -> gtb y zero = true ->
  signed_as false (div x y).
Proof.
  intros Hf Hs Hy. destruct (positive_cases y Hy) as [-> | (my & ey & ->)].
  - destruct x as [s|s| |s m e]; simpl in *; try discriminate; subst; reflexivity.
  - destruct x as [s|s| |s m e]; simpl in Hf, Hs; try discriminate; subst;
      [reflexivity|].
    unfold div, SFdiv, SFdiv_core_binary.
    match goal with |- context [Z.div_eucl ?a ?b] =>
      assert (Hq : 0 <= fst (Z.div_eucl a b));
      [ change (fst (Z.div_eucl a b)) with (a / b); apply Z.div_pos; [|lia]
      | destruct (Z.div_eucl a b) as [q r]; simpl in Hq; simpl xorb;
        now apply binary_round_aux_sign ]
    end.
    destruct (_ - _ - _) as [|p|p]; try lia.
    apply Z.shiftl_nonneg. lia.
Qed.

(** The rate of a delta that is not negative over a positive time is not
    negative (and not a NaN). *)
Lemma rate_nonneg delta delta_t :
  0 <= delta <= LLONG_MAX -> gtb delta_t zero = true ->
  nonneg (div (of_Z delta) delta_t) = true.
Proof.
  intros Hd Ht. destruct (of_Z_finite delta Hd) as [Hf Hs].
  apply signed_false_nonneg. now apply div_sign.
Qed.

Lemma gtb_five_gtb_zero x : gtb x five = true -> gtb x zero = true.
Proof.
  destruct x as [s|s| |s m e]; try destruct s; cbn; congruence.
Qed.

(** ** Doubles: the conversion of a counter and its division by 1.0 *)

Lemma fexp_normal x : -1021 <= x -> fexp prec emax x = x - 53.
Proof. unfold fexp, emin, prec, emax. lia. Qed.

Lemma div_core_one m e :
  Z.pos (digits2_pos m) = 53 -> -1073 <= e ->
  SFdiv_core_binary prec emax (Z.pos m) e 4503599627370496 (-52)
  = (Z.pos m~0, e - 1, loc_Exact).
Proof.
  intros Hd He. unfold SFdiv_core_binary.
  change (Zdigits2 (Z.pos m)) with (Z.pos (digits2_pos m)). rewrite Hd.
  change (Zdigits2 4503599627370496) with 53.
  rewrite fexp_normal by lia.
  replace (Z.min (53 + e - (53 + -52) - 53) (e - -52)) with (e - 1) by lia.
  replace (e - -52 - (e - 1)) with 53 by lia.
  cbv beta iota zeta.
  assert (Hq : Z.div_eucl (Z.shiftl (Z.pos m) 53) 4503599627370496 = (Z.pos m~0, 0)).
  { rewrite Z.shiftl_mul_pow2 by lia.
    pose proof (Z.div_eucl_eq (Z.pos m * 2 ^ 53) 4503599627370496 ltac:(lia)) as H.
    pose proof (Z.mod_pos_bound (Z.pos m * 2 ^ 53) 4503599627370496 ltac:(lia)) as Hb.
    unfold Z.modulo in Hb.
    destruct (Z.div_eucl (Z.pos m * 2 ^ 53) 4503599627370496) as [q r].
    change (2 ^ 53) with (2 * 4503599627370496) in H.
    assert (r = 0 /\ q = 2 * Z.pos m) as [-> ->] by nia.
    reflexivity. }
  rewrite Hq. reflexivity.
Qed.

Lemma round_even_exact s m e :
  Z.pos (digits2_pos m) = 53 -> -1073 <= e <= 971 ->
  binary_round_aux prec emax s (Z.pos m~0) (e - 1) loc_Exact = S754_finite s m e.
Proof.
  intros Hd He. unfold binary_round_aux.
  assert (H1 : shr_fexp prec emax (Z.pos m~0) (e - 1) loc_Exact
               = ({| shr_m := Z.pos m; shr_r := false; shr_s := false |}, e)).
  { unfold shr_fexp. change (Zdigits2 (Z.pos m~0)) with (Z.pos (Pos.succ (digits2_pos m))).
    rewrite Pos2Z.inj_succ, Hd. rewrite fexp_normal by lia.
    replace (Z.succ 53 + (e - 1) - 53 - (e - 1)) with 1 by lia.
    cbn. f_equal. lia. }
  rewrite H1. cbn [shr_m loc_of_shr_record round_nearest_even].
  assert (H2 : shr_fexp prec emax (Z.pos m) e loc_Exact
               = ({| shr_m := Z.pos m; shr_r := false; shr_s := false |}, e)).
  { unfold shr_fexp. change (Zdigits2 (Z.pos m)) with (Z.pos (digits2_pos m)).
    rewrite Hd, fexp_normal by lia.
    replace (53 + e - 53 - e) with 0 by lia. reflexivity. }
  rewrite H2. cbn [shr_m].
  replace (e <=? emax - prec) with true; [reflexivity|].
  symmetry. apply Z.leb_le. unfold emax, prec. lia.
Qed.

Lemma div_one_normal s m e :
  Z.pos (digits2_pos m) = 53 -> -1073 <= e <= 971 ->
  div (S754_finite s m e) one = S754_finite s m e.
Proof.
  intros Hd He. unfold div, one, SFdiv. rewrite div_core_one by lia.
  rewrite xorb_false_r. now apply round_even_exact.
Qed.

Lemma Zdigits2_nonneg m : 0 <= Zdigits2 m.
Proof. destruct m; simpl; lia. Qed.

Lemma Zdigits2_pos_inv m : 0 <= m -> 0 < Zdigits2 m -> 0 < m.
Proof. destruct m; simpl; lia. Qed.

Lemma shr_1_digits mrs :
  0 <= shr_m mrs ->
  0 <= shr_m (shr_1 mrs)
  /\ Zdigits2 (shr_m (shr_1 mrs)) = Z.max 0 (Zdigits2 (shr_m mrs) - 1).
Proof.
  destruct mrs as [m r s]; cbn [shr_m]. intros H.
  destruct m as [|[p|p|]|[p|p|]]; try lia;
    cbn [shr_1 shr_m Zdigits2 digits2_pos]; rewrite ?Pos2Z.inj_succ; lia.
Qed.

Lemma iter_pos_shr_1_digits n : forall mrs,
  0 <= shr_m mrs ->
  0 <= shr_m (SpecFloat.iter_pos shr_1 n mrs)
  /\ Zdigits2 (shr_m (SpecFloat.iter_pos shr_1 n mrs))
     = Z.max 0 (Zdigits2 (shr_m mrs) - Z.pos n).
Proof.
  induction n as [n IH|n IH|]; intros mrs H; simpl.
  - destruct (shr_1_digits mrs H) as [H1 E1].
    destruct (IH _ H1) as [H2 E2]. destruct (IH _ H2) as [H3 E3].
    split; [exact H3|]. rewrite E3, E2, E1. lia.
  - destruct (IH _ H) as [H2 E2]. destruct (IH _ H2) as [H3 E3].
    split; [exact H3|]. rewrite E3, E2. lia.
  - apply shr_1_digits, H.
Qed.

(** A mantissa of at least 53 digits in the normal range is shifted to 53. *)
Lemma shr_fexp_digits m e l :
  0 <= m -> 53 <= Zdigits2 m -> -1021 <= Zdigits2 m + e ->
  0 <= shr_m (fst (shr_fexp prec emax m e l))
  /\ Zdigits2 (shr_m (fst (shr_fexp prec emax m e l))) = 53
  /\ snd (shr_fexp prec emax m e l) = e + (Zdigits2 m - 53).
Proof.
  intros Hm Hd He. unfold shr_fexp. rewrite fexp_normal by lia. unfold shr.
  destruct (Zdigits2 m + e - 53 - e) as [|n|n] eqn:En; simpl;
    rewrite ?shr_record_of_loc_m; try lia.
  destruct (iter_pos_shr_1_digits n (shr_record_of_loc m l)) as [H1 E1];
    rewrite ?shr_record_of_loc_m in *; [lia|].
  split; [exact H1|]. split; [rewrite E1|]; lia.
Qed.

Lemma round_nearest_even_digits m l :
  0 < m ->
  0 < round_nearest_even m l
  /\ Zdigits2 m <= Zdigits2 (round_nearest_even m l) <= Zdigits2 m + 1.
Proof.
  intros Hm.
  assert (Hs : 0 < m + 1 /\ Zdigits2 m <= Zdigits2 (m + 1) <= Zdigits2 m + 1).
  { split; [lia|]. destruct m as [|p|p]; try lia.
    change (Z.pos p + 1) with (Z.pos (p + 1)). simpl Zdigits2.
    rewrite !digits2_pos_log2. rewrite Pos2Z.inj_add.
    destruct (Z.log2_succ_or (Z.pos p)) as [H|H]; unfold Z.succ in H; lia. }
  destruct l as [|[]]; simpl; try (split; lia); try exact Hs.
  destruct (Z.even m); [split; lia|exact Hs].
Qed.

Lemma binary_round_aux_normal s m e l :
  0 < m -> 53 <= Zdigits2 m -> -1020 <= Zdigits2 m + e <= 1000 ->
  normal (binary_round_aux prec emax s m e l)
  /\ exists m' e', binary_round_aux prec emax s m e l = S754_finite s m' e'.
Proof.
  intros Hm Hd He. unfold binary_round_aux.
  destruct (shr_fexp_digits m e l ltac:(lia) Hd ltac:(lia)) as (H1 & D1 & E1).
  destruct (shr_fexp prec emax m e l) as [mrs' e']. simpl in H1, D1, E1.
  assert (Hm' : 0 < shr_m mrs') by (apply Zdigits2_pos_inv; lia).
  destruct (round_nearest_even_digits (shr_m mrs') (loc_of_shr_record mrs') Hm')
    as [Hr Dr].
  set (m1 := round_nearest_even (shr_m mrs') (loc_of_shr_record mrs')) in *.
  destruct (shr_fexp_digits m1 e' loc_Exact ltac:(lia) ltac:(lia) ltac:(lia))
    as (H2 & D2 & E2).
  destruct (shr_fexp prec emax m1 e' loc_Exact) as [mrs'' e'']. simpl in H2, D2, E2.
  destruct (shr_m mrs'') as [|p|p]; simpl in D2; try lia.
  assert (Hle : e'' <= 971) by lia.
  replace (e'' <=? emax - prec) with true
    by (symmetry; apply Z.leb_le; unfold emax, prec; lia).
  split; [|eauto]. simpl. lia.
Qed.

Lemma digits2_pos_iter_xO p d :
  Z.pos (digits2_pos (Pos.iter xO p d)) = Z.pos (digits2_pos p) + Z.pos d.
Proof.
  induction d using Pos.peano_ind.
  - simpl. lia.
  - rewrite Pos.iter_succ. simpl digits2_pos. lia.
Qed.

Lemma of_Z_normal z :
  0 < z <= LLONG_MAX ->
  normal (of_Z z) /\ exists m e, of_Z z = S754_finite false m e.
Proof.
  intros Hz'. assert (Hz : 0 < z < 2 ^ 63) by (unfold LLONG_MAX in Hz'; lia).
  clear Hz'. unfold of_Z, binary_normalize. destruct z as [|p|p]; try lia.
  unfold binary_round.
  pose proof (Zdigits2_bound (Z.pos p) 63 ltac:(lia) ltac:(lia)) as Hd. simpl in Hd.
  rewrite fexp_normal by lia. unfold shl_align.
  destruct (Z.pos (digits2_pos p) + 0 - 53 - 0) as [|d|d] eqn:E.
  - apply binary_round_aux_normal; simpl; lia.
  - apply binary_round_aux_normal; simpl; lia.
  - pose proof (digits2_pos_iter_xO p d).
    apply binary_round_aux_normal; cbn [Zdigits2]; lia.
Qed.

(** Dividing a converted counter by 1.0 gives the converted counter, and
    the conversion of a positive counter is not 0.0. *)
Lemma div_one_of_Z z : 0 <= z <= LLONG_MAX -> div (of_Z z) one = of_Z z.
Proof.
  intros Hz. destruct (Z.eq_dec z 0) as [->|Hne]; [reflexivity|].
  destruct (of_Z_normal z ltac:(lia)) as [Hn (m & e & E)].
  rewrite E in *. simpl in Hn. now apply div_one_normal.
Qed.

Lemma of_Z_nonzero z : 0 < z <= LLONG_MAX -> of_Z z <> zero.
Proof.
  intros Hz. destruct (of_Z_normal z Hz) as [_ (m & e & E)]. rewrite E. discriminate.
Qed.

(** ** long long and the numbers [strtoll] returns *)

Lemma wrap_ll_id z : in_ll z -> wrap_ll z = z.
Proof.
  unfold in_ll, wrap_ll, LLONG_MIN, LLONG_MAX. intros H.
  rewrite Z.mod_small; lia.
Qed.

Lemma wrap_ll_in_ll z : in_ll (wrap_ll z).
Proof.
  unfold in_ll, wrap_ll, LLONG_MIN, LLONG_MAX.
  pose proof (Z.mod_pos_bound (z - -9223372036854775808) (2 ^ 64) ltac:(lia)). lia.
Qed.

Lemma sub_ll_exact a b : in_ll (a - b) -> sub_ll a b = a - b.
Proof. apply wrap_ll_id. Qed.

Lemma digit_val_range c d : digit_val c = Some d -> 0 <= d <= 9.
Proof.
  unfold digit_val. destruct (_ && _) eqn:E; [|discriminate].
  intros [= <-]. apply andb_true_iff in E as [?%Z.leb_le ?%Z.leb_le]. lia.
Qed.

Lemma read_digits_nonneg s : forall acc, 0 <= acc -> 0 <= read_digits s acc.
Proof.
  induction s as [|c r IH]; intros acc H; simpl; [lia|].
  destruct (digit_val c) as [d|] eqn:E; [|lia].
  apply IH. pose proof (digit_val_range _ _ E). lia.
Qed.

Lemma strtoll_in_ll s : in_ll (strtoll s).
Proof.
  unfold strtoll, in_ll.
  assert (Hn : forall r, 0 <= read_digits r 0) by (intros; now apply read_digits_nonneg).
  assert (Hp : forall r, LLONG_MIN <= Z.min LLONG_MAX (read_digits r 0) <= LLONG_MAX).
  { intros r. specialize (Hn r). unfold LLONG_MIN, LLONG_MAX. lia. }
  assert (Hm : forall r, LLONG_MIN <= Z.max LLONG_MIN (- read_digits r 0) <= LLONG_MAX).
  { intros r. specialize (Hn r). unfold LLONG_MIN, LLONG_MAX. lia. }
  destruct (skip_spaces s) as [|c r]; [apply Hp|].
  destruct c as [[] [] [] [] [] [] [] []]; first [apply Hp | apply Hm].
Qed.

Lemma parse_line_in_ll buf a b :
  parse_line buf = Some (a, b) -> in_ll a /\ in_ll b.
Proof.
  unfold parse_line. destruct (index_split _ _) as [[h t]|]; simpl; [|discriminate].
  intros [= <- <-]. split; apply strtoll_in_ll.
Qed.

Lemma read_counters_in_ll f c k :
  read_counters f = Some c -> in_ll (counter k c).
Proof.
  assert (Hm1 : in_ll (-1)) by (unfold in_ll, LLONG_MIN, LLONG_MAX; lia).
  destruct f as [|[|l1 [|l2 rest]]]; simpl.
  - intros [= <-]. destruct k; exact Hm1.
  - intros [= <-]. destruct k; exact Hm1.
  - destruct (parse_line l1) as [[ps pr]|] eqn:E1; simpl; [|discriminate].
    intros [= <-]. apply parse_line_in_ll in E1 as [? ?].
    destruct k; simpl; auto.
  - destruct (parse_line l1) as [[ps pr]|] eqn:E1; simpl; [|discriminate].
    destruct (parse_line l2) as [[bs br]|] eqn:E2; simpl; [|discriminate].
    intros [= <-]. apply parse_line_in_ll in E1 as [? ?], E2 as [? ?].
    destruct k; simpl; auto.
Qed.

(** When nothing can be read from the pipeline, all four counters stay at
    the -1 they were set to. *)
Lemma read_counters_nothing f :
  f = popen_NULL \/ f = popen_stream [] -> read_counters f = Some no_counters.
Proof. intros [-> | ->]; reflexivity. Qed.

(** ** One run of [read_device] *)

Lemma array_modify_Some {A} (f : A -> A) i (a : list A) :
  (i < length a)%nat -> array_modify f i a = Some (alter f i a).
Proof.
  intros H. unfold array_modify.
  destruct (lookup_lt_is_Some_2 a i H) as [x ->]. reflexivity.
Qed.

Lemma array_modify_inv {A} (f : A -> A) i (a a' : list A) :
  array_modify f i a = Some a' -> (i < length a)%nat /\ a' = alter f i a.
Proof.
  unfold array_modify. destruct (a !! i) eqn:E; simpl; [|discriminate].
  intros [= <-]. split; [|reflexivity]. eapply lookup_lt_Some; eauto.
Qed.

Lemma update_table_Some raw delta_t i t :
  (i < length t)%nat ->
  update_table raw delta_t i t = Some (sampled_table raw delta_t i t).
Proof.
  intros H. unfold update_table, sampled_table.
  destruct (raw =? -1); [reflexivity|]. now apply array_modify_Some.
Qed.

Lemma update_table_inv raw delta_t i t t' :
  update_table raw delta_t i t = Some t' -> t' = sampled_table raw delta_t i t.
Proof.
  unfold update_table, sampled_table. destruct (raw =? -1); [congruence|].
  intros H. now apply array_modify_inv in H as [_ ->].
Qed.

Lemma length_sampled_table raw delta_t i t :
  length (sampled_table raw delta_t i t) = length t.
Proof. unfold sampled_table. destruct (raw =? -1); [|rewrite length_alter]; reflexivity. Qed.

Lemma sampled_table_lookup_ne raw delta_t i j t :
  i <> j -> sampled_table raw delta_t i t !! j = t !! j.
Proof.
  intros H. unfold sampled_table. destruct (raw =? -1); [reflexivity|].
  now apply list_lookup_alter_ne.
Qed.

Lemma sampled_table_lookup raw delta_t i t :
  sampled_table raw delta_t i t !! i
  = (if raw =? -1 then id else rate_update raw delta_t) <$> t !! i.
Proof.
  unfold sampled_table. destruct (raw =? -1).
  - now destruct (t !! i).
  - apply list_lookup_alter_eq.
Qed.

Lemma table_sampled_state k i delta_t now c st :
  table k (sampled_state i delta_t now c st)
  = sampled_table (counter k c) delta_t i (table k st).
Proof. destruct k; reflexivity. Qed.

Lemma table_disabled_state k i st : table k (disabled_state i st) = table k st.
Proof. destruct k; reflexivity. Qed.

Lemma read_device_done i delta_t now f c st :
  wf_state st -> (i < length (netif_devices st))%nat ->
  read_counters f = Some c ->
  read_device i delta_t now (entstat_done f) st
  = Some (sampled_state i delta_t now c st).
Proof.
  intros Hwf Hi Hc. unfold read_device. cbn -[read_counters].
  destruct (lookup_lt_is_Some_2 _ _ Hi) as [d ->]. cbn -[read_counters].
  rewrite Hc. cbn.
  pose proof (Hwf BYTES_RECEIVED) as H1. pose proof (Hwf BYTES_SENT) as H2.
  pose proof (Hwf PKTS_RECEIVED) as H3. pose proof (Hwf PKTS_SENT) as H4.
  cbn in H1, H2, H3, H4.
  rewrite !update_table_Some by lia. cbn.
  rewrite array_modify_Some by lia. reflexivity.
Qed.

Lemma read_device_done_inv i delta_t now f st st' :
  read_device i delta_t now (entstat_done f) st = Some st' ->
  exists c, read_counters f = Some c
            /\ st' = sampled_state i delta_t now c st
            /\ (i < length (netif_devices st))%nat.
Proof.
  unfold read_device. cbn -[read_counters].
  destruct (netif_devices st !! i) as [d|] eqn:Ed; cbn -[read_counters]; [|discriminate].
  destruct (read_counters f) as [c|]; cbn; [|discriminate].
  destruct (update_table (c_bytes_received c) _ _ _) as [br|] eqn:E1; cbn; [|discriminate].
  destruct (update_table (c_bytes_sent c) _ _ _) as [bs|] eqn:E2; cbn; [|discriminate].
  destruct (update_table (c_pkts_received c) _ _ _) as [pr|] eqn:E3; cbn; [|discriminate].
  destruct (update_table (c_pkts_sent c) _ _ _) as [ps|] eqn:E4; cbn; [|discriminate].
  destruct (array_modify _ _ _) as [ds|] eqn:E5; cbn; [|discriminate].
  intros [= <-]. exists c. split; [reflexivity|].
  apply update_table_inv in E1, E2, E3, E4. apply array_modify_inv in E5 as [Hi ->].
  subst. split; [reflexivity|assumption].
Qed.

Lemma read_device_alarm i delta_t now st :
  (i < length (netif_devices st))%nat ->
  read_device i delta_t now SIGALRM_fired st = Some (disabled_state i st).
Proof.
  intros Hi. unfold read_device, my_sig_handler. cbn.
  destruct (Z.ltb_spec (Z.of_nat i) 0) as [?|_]; [lia|].
  rewrite Nat2Z.id, array_modify_Some by assumption. reflexivity.
Qed.

Lemma read_device_alarm_inv i delta_t now st st' :
  read_device i delta_t now SIGALRM_fired st = Some st' ->
  st' = disabled_state i st /\ (i < length (netif_devices st))%nat.
Proof.
  unfold read_device, my_sig_handler. cbn.
  destruct (Z.ltb_spec (Z.of_nat i) 0) as [?|_]; [lia|].
  rewrite Nat2Z.id. destruct (array_modify _ _ _) as [ds|] eqn:E; cbn; [|discriminate].
  intros [= <-]. apply array_modify_inv in E as [Hi ->]. split; [reflexivity|assumption].
Qed.

(** ** The rate tracker's update inside [read_device] *)

Lemma wf_state_lookup k i p st :
  wf_state st -> table k st !! i = Some p -> (i < length (netif_devices st))%nat.
Proof. intros Hwf H. rewrite <- (Hwf k). eapply lookup_lt_Some; eauto. Qed.

Lemma raw_available raw : raw <> -1 -> (raw =? -1) = false.
Proof. intros H. now apply Z.eqb_neq. Qed.

(** C1. When [read_device] has read an available counter ([raw], not -1)
    for a kind and the delta [raw - last_total_value] that it computes is not
    negative, the kind's new rate is the double quotient of that delta by
    the elapsed seconds [delta_t]; [last_value] (lastRate) and [curr_value]
    are both set to it and [last_total_value] (lastRawValue) to [raw].  For
    counters that do not decrease from a value that is not negative, the
    delta is the mathematical difference. *)
Theorem C1_rate_is_delta_over_elapsed k devIndex delta_t now f c st p :
  wf_state st ->
  table k st !! devIndex = Some p ->
  read_counters f = Some c ->
  counter k c <> -1 ->
  0 <= sub_ll (counter k c) (last_total_value p) ->
  let raw := counter k c in
  let delta := sub_ll raw (last_total_value p) in
  let rate := div (of_Z delta) delta_t in
  (exists st',
      read_device devIndex delta_t now (entstat_done f) st = Some st'
      /\ table k st' !! devIndex
         = Some {| last_value := rate; curr_value := rate; last_total_value := raw |})
  /\ rate_update raw delta_t p
     = {| last_value := rate; curr_value := rate; last_total_value := raw |}
  /\ (0 <= last_total_value p <= raw -> delta = raw - last_total_value p).
Proof.
  intros Hwf Hp Hc Hraw Hdelta raw delta rate.
  assert (Hupd : rate_update raw delta_t p
                 = {| last_value := rate; curr_value := rate; last_total_value := raw |}).
  { unfold rate_update. fold delta.
    destruct (Z.ltb_spec delta 0) as [?|_]; [unfold delta, raw in *; lia|reflexivity]. }
  split; [|split; [exact Hupd|]].
  - exists (sampled_state devIndex delta_t now c st). split.
    + apply read_device_done; eauto using wf_state_lookup.
    + rewrite table_sampled_state, sampled_table_lookup, Hp.
      fold raw. rewrite (raw_available raw Hraw). cbn. now rewrite Hupd.
  - intros Hmono. apply sub_ll_exact.
    pose proof (read_counters_in_ll f c k Hc) as Hr. fold raw in Hr.
    unfold in_ll, LLONG_MIN, LLONG_MAX in *. lia.
Qed.

(** C2. When the delta that [read_device] computes for an available counter
    is negative, the rate is the previous [last_value] unchanged,
    [last_value] keeps it, and [last_total_value] is still set to the new
    raw counter. *)
Theorem C2_negative_delta_holds_rate k devIndex delta_t now f c st p :
  wf_state st ->
  table k st !! devIndex = Some p ->
  read_counters f = Some c ->
  counter k c <> -1 ->
  sub_ll (counter k c) (last_total_value p) < 0 ->
  (exists st',
      read_device devIndex delta_t now (entstat_done f) st = Some st'
      /\ table k st' !! devIndex
         = Some {| last_value := last_value p; curr_value := last_value p;
                   last_total_value := counter k c |})
  /\ rate_update (counter k c) delta_t p
     = {| last_value := last_value p; curr_value := last_value p;
          last_total_value := counter k c |}.
Proof.
  intros Hwf Hp Hc Hraw Hdelta.
  assert (Hupd : rate_update (counter k c) delta_t p
                 = {| last_value := last_value p; curr_value := last_value p;
                      last_total_value := counter k c |}).
  { unfold rate_update.
    destruct (Z.ltb_spec (sub_ll (counter k c) (last_total_value p)) 0) as [_|?];
      [reflexivity|lia]. }
  split; [|exact Hupd].
  exists (sampled_state devIndex delta_t now c st). split.
  - apply read_device_done; eauto using wf_state_lookup.
  - rewrite table_sampled_state, sampled_table_lookup, Hp.
    rewrite (raw_available _ Hraw). cbn. now rewrite Hupd.
Qed.

(** C9. When SIGALRM disables device [x], only the [enabled] flag of [x]'s
    own record changes: every other device's record and all four arrays
    of rate states are as before. *)
Theorem C9_disabling_is_local x delta_t now st d :
  netif_devices st !! x = Some d ->
  exists st',
    read_device x delta_t now SIGALRM_fired st = Some st'
    /\ netif_devices st' !! x = Some (set_enabled false d)
    /\ (forall y, y <> x -> netif_devices st' !! y = netif_devices st !! y)
    /\ (forall k, table k st' = table k st).
Proof.
  intros Hd. exists (disabled_state x st). split; [|split; [|split]].
  - apply read_device_alarm. eapply lookup_lt_Some; eauto.
  - cbn. now rewrite list_lookup_alter_eq, Hd.
  - intros y Hy. cbn. apply list_lookup_alter_ne. congruence.
  - intros k. apply table_disabled_state.
Qed.

Lemma wf_after_init : wf_state Demo.after_init.
Proof. intros []; reflexivity. Defined.

Lemma C1_witness :
  exists st',
    read_device 0 (of_Z 10) (of_Z 110) (entstat_done Demo.more) Demo.after_init
    = Some st'
    /\ table BYTES_RECEIVED st' !! 0%nat
       = Some {| last_value := of_Z 200; curr_value := of_Z 200;
                 last_total_value := 3000 |}.
Proof.
  refine (proj1 (C1_rate_is_delta_over_elapsed BYTES_RECEIVED 0 (of_Z 10) (of_Z 110)
                   Demo.more Demo.more_counters Demo.after_init
                   Demo.ent0_bytes_received wf_after_init _ _ _ _)).
  - reflexivity.
  - reflexivity.
  - vm_compute. discriminate.
  - vm_compute. discriminate.
Defined.

Lemma C2_witness :
  exists st',
    read_device 0 (of_Z 10) (of_Z 110) (entstat_done Demo.fewer) Demo.after_init
    = Some st'
    /\ table BYTES_RECEIVED st' !! 0%nat
       = Some {| last_value := of_Z 1000; curr_value := of_Z 1000;
                 last_total_value := 800 |}.
Proof.
  refine (proj1 (C2_negative_delta_holds_rate BYTES_RECEIVED 0 (of_Z 10) (of_Z 110)
                   Demo.fewer Demo.fewer_counters Demo.after_init
                   Demo.ent0_bytes_received wf_after_init _ _ _ _)).
  - reflexivity.
  - reflexivity.
  - vm_compute. discriminate.
  - reflexivity.
Defined.

Lemma C9_witness :
  exists st',
    read_device 0 (of_Z 10) (of_Z 110) SIGALRM_fired Demo.after_init = Some st'
    /\ netif_devices st' !! 0%nat = Some (set_enabled false Demo.ent0)
    /\ (forall y, y <> 0%nat ->
          netif_devices st' !! y = netif_devices Demo.after_init !! y)
    /\ (forall k, table k st' = table k Demo.after_init).
Proof.
  refine (C9_disabling_is_local 0 (of_Z 10) (of_Z 110) Demo.after_init Demo.ent0 _).
  reflexivity.
Defined.

(** ** The three ways through a metric function *)

Lemma netif_func_disabled k i now run st d :
  netif_devices st !! i = Some d -> enabled d = false ->
  netif_func k i now run st = Some (minus_one, st).
Proof. intros Hd He. unfold netif_func. rewrite Hd. cbn. now rewrite He. Qed.

Lemma netif_func_cached k i now run st d p :
  netif_devices st !! i = Some d -> enabled d = true ->
  gtb (time_diff d now) (threshold d) = false ->
  table k st !! i = Some p ->
  netif_func k i now run st = Some (curr_value p, st).
Proof.
  intros Hd He Ht Hp. unfold netif_func. rewrite Hd. cbn.
  rewrite He, Ht. cbn. rewrite Hp. reflexivity.
Qed.

Lemma netif_func_resample k i now run st d :
  netif_devices st !! i = Some d -> enabled d = true ->
  gtb (time_diff d now) (threshold d) = true ->
  netif_func k i now run st
  = (st' ← read_device i (time_diff d now) now run st;
     p ← table k st' !! i;
     Some (curr_value p, st')).
Proof.
  intros Hd He Ht. unfold netif_func. rewrite Hd. cbn.
  rewrite He, Ht. reflexivity.
Qed.

Lemma netif_func_inv k i now run st v st' :
  netif_func k i now run st = Some (v, st') ->
  netif_func_path k i now run st v st'.
Proof.
  unfold netif_func.
  destruct (netif_devices st !! i) as [d|] eqn:Hd; cbn; [|discriminate].
  destruct (enabled d) eqn:He.
  - destruct (gtb (time_diff d now) (threshold d)) eqn:Ht.
    + destruct (read_device _ _ _ _ _) as [st1|] eqn:Hr; cbn; [|discriminate].
      destruct (table k st1 !! i) as [p|] eqn:Hp; cbn; [|discriminate].
      intros [= <- <-]. eapply path_resample; eauto.
    + cbn. destruct (table k st !! i) as [p|] eqn:Hp; cbn; [|discriminate].
      intros [= <- <-]. eapply path_cached; eauto.
  - intros [= <- <-]. eapply path_disabled; eauto.
Qed.

(** [read_device] keeps the arrays' sizes. *)
Lemma read_device_wf i delta_t now run st st' :
  wf_state st -> read_device i delta_t now run st = Some st' ->
  wf_state st' /\ length (netif_devices st') = length (netif_devices st).
Proof.
  intros Hwf Hr. destruct run as [|f].
  - apply read_device_alarm_inv in Hr as [-> _]. split.
    + intros k. rewrite table_disabled_state. cbn. rewrite length_alter. apply Hwf.
    + cbn. now rewrite length_alter.
  - apply read_device_done_inv in Hr as (c & _ & -> & _). split.
    + intros k. rewrite table_sampled_state, length_sampled_table. cbn.
      rewrite length_alter. apply Hwf.
    + cbn. now rewrite length_alter.
Qed.

(** A metric function called for a device of the table, on output that
    can be read, returns. *)
Lemma netif_func_total k i now run st :
  wf_state st -> (i < length (netif_devices st))%nat -> parses run = true ->
  is_Some (netif_func k i now run st).
Proof.
  intros Hwf Hi Hp. destruct (lookup_lt_is_Some_2 _ _ Hi) as [d Hd].
  assert (Hk : forall s, wf_state s -> length (netif_devices s) = length (netif_devices st) ->
                         is_Some (table k s !! i)).
  { intros s Hs Hl. apply lookup_lt_is_Some_2. rewrite (Hs k), Hl. exact Hi. }
  destruct (enabled d) eqn:He.
  - destruct (gtb (time_diff d now) (threshold d)) eqn:Ht.
    + rewrite (netif_func_resample k i now run st d Hd He Ht).
      assert (Hr : is_Some (read_device i (time_diff d now) now run st)).
      { destruct run as [|f].
        - rewrite read_device_alarm by exact Hi. eauto.
        - cbn in Hp. apply bool_decide_eq_true in Hp as [c Hc].
          rewrite (read_device_done _ _ _ _ c) by assumption. eauto. }
      destruct Hr as [st1 Hr]. rewrite Hr. cbn.
      destruct (read_device_wf _ _ _ _ _ _ Hwf Hr) as [Hwf1 Hl1].
      destruct (Hk st1 Hwf1 Hl1) as [p ->]. cbn. eauto.
    + destruct (Hk st Hwf eq_refl) as [p Hp'].
      rewrite (netif_func_cached k i now run st d p); eauto.
  - rewrite (netif_func_disabled k i now run st d); eauto.
Qed.

(** [read_device] writes the records of its own device only, and is logged
    once. *)
Lemma read_device_frame i delta_t now run st st' :
  read_device i delta_t now run st = Some st' ->
  (forall y, y <> i -> netif_devices st' !! y = netif_devices st !! y)
  /\ (forall k y, y <> i -> table k st' !! y = table k st !! y)
  /\ entstat_calls st' = i :: entstat_calls st.
Proof.
  intros Hr. destruct run as [|f].
  - apply read_device_alarm_inv in Hr as [-> _]. split; [|split].
    + intros y Hy. cbn. apply list_lookup_alter_ne. congruence.
    + intros k y _. now rewrite table_disabled_state.
    + reflexivity.
  - apply read_device_done_inv in Hr as (c & _ & -> & _). split; [|split].
    + intros y Hy. cbn. apply list_lookup_alter_ne. congruence.
    + intros k y Hy. rewrite table_sampled_state.
      apply sampled_table_lookup_ne. congruence.
    + reflexivity.
Qed.

(** ** Counters that could not be read *)

(** C7. A kind whose counter is -1 after the pipeline was read keeps its
    array, and so its [last_total_value], [last_value] and [curr_value],
    as they were, in [read_device] and so in the metric function that
    called it; when [popen] fails or the first [fgets] returns NULL all
    four counters are -1 and all four arrays are kept. *)
Theorem C7_unavailable_counter_untouched devIndex delta_t now f c st :
  wf_state st ->
  (devIndex < length (netif_devices st))%nat ->
  read_counters f = Some c ->
  (exists st',
      read_device devIndex delta_t now (entstat_done f) st = Some st'
      /\ (forall k, counter k c = -1 -> table k st' = table k st)
      /\ (f = popen_NULL \/ f = popen_stream [] ->
          forall k, counter k c = -1 /\ table k st' = table k st))
  /\ (forall k' v st'',
        netif_func k' devIndex now (entstat_done f) st = Some (v, st'') ->
        forall k, counter k c = -1 -> table k st'' = table k st).
Proof.
  intros Hwf Hi Hc.
  assert (Hk : forall dt k, counter k c = -1 ->
               table k (sampled_state devIndex dt now c st) = table k st).
  { intros dt k Hm1. rewrite table_sampled_state. unfold sampled_table.
    now rewrite Hm1. }
  split.
  - exists (sampled_state devIndex delta_t now c st).
    split; [now apply read_device_done|]. split; [apply Hk|].
    intros Hf k. rewrite (read_counters_nothing f Hf) in Hc. injection Hc as <-.
    split; [now destruct k|]. apply Hk. now destruct k.
  - intros k' v st'' Hf k Hm1.
    destruct (netif_func_inv _ _ _ _ _ _ _ Hf)
      as [d0 _ _ _ -> | d0 p _ _ _ _ _ -> | d0 p _ _ _ Hr _ _]; try reflexivity.
    apply read_device_done_inv in Hr as (c' & Hc' & -> & _).
    assert (c' = c) as -> by congruence. now apply Hk.
Qed.

Lemma C7_witness :
  exists st',
    read_device 0 (of_Z 10) (of_Z 110) (entstat_done Demo.packets_only)
      Demo.after_init = Some st'
    /\ (forall k,
          counter k {| c_bytes_received := -1; c_bytes_sent := -1;
                       c_pkts_received := 10; c_pkts_sent := 8 |} = -1 ->
          table k st' = table k Demo.after_init)
    /\ (Demo.packets_only = popen_NULL \/ Demo.packets_only = popen_stream [] ->
        forall k,
          counter k {| c_bytes_received := -1; c_bytes_sent := -1;
                       c_pkts_received := 10; c_pkts_sent := 8 |} = -1
          /\ table k st' = table k Demo.after_init).
Proof.
  refine (proj1 (C7_unavailable_counter_untouched 0 (of_Z 10) (of_Z 110)
                   Demo.packets_only _ Demo.after_init wf_after_init _ _)).
  - vm_compute. constructor.
  - reflexivity.
Defined.

(** ** A disabled device stays disabled *)

(** C3. Once the [enabled] flag of device [x] is false, each metric
    function called for [x] returns -1.0 and leaves the whole state as it
    is (so [read_device] is not entered), and over any sequence of calls,
    for any devices, the record of [x] stays as it is (the flag is never
    set again), every call for [x] returns -1.0 and no entry into
    [read_device] for [x] is added to the log. *)
Theorem C3_disabled_is_terminal x d st :
  netif_devices st !! x = Some d ->
  enabled d = false ->
  (forall k now run, netif_func k x now run st = Some (minus_one, st))
  /\ (forall cs vs st',
        do_calls cs st = Some (vs, st') ->
        netif_devices st' !! x = Some d
        /\ Forall2 (fun c v => call_index c = x -> v = minus_one) cs vs
        /\ exists new, entstat_calls st' = new ++ entstat_calls st /\ x ∉ new).
Proof.
  intros Hd He. split.
  { intros k now run. eapply netif_func_disabled; eauto. }
  intros cs. revert st Hd. induction cs as [|c cs IH]; intros st Hd vs st' Hrun.
  - cbn in Hrun. injection Hrun as <- <-. split; [exact Hd|]. split; [constructor|].
    exists []. split; [reflexivity|]. apply not_elem_of_nil.
  - cbn in Hrun.
    destruct (do_call c st) as [[v st1]|] eqn:Hc; cbn in Hrun; [|discriminate].
    destruct (do_calls cs st1) as [[vs1 st2]|] eqn:Hcs; cbn in Hrun; [|discriminate].
    injection Hrun as <- <-.
    assert (Hstep : netif_devices st1 !! x = Some d
                    /\ (call_index c = x -> v = minus_one)
                    /\ exists new1, entstat_calls st1 = new1 ++ entstat_calls st
                                    /\ x ∉ new1).
    { destruct (netif_func_inv _ _ _ _ _ _ _ Hc)
        as [d0 Hd0 He0 -> -> | d0 p Hd0 He0 _ _ _ -> | d0 p Hd0 He0 _ Hr _ _].
      - split; [exact Hd|]. split; [reflexivity|].
        exists []. split; [reflexivity|apply not_elem_of_nil].
      - split; [exact Hd|]. split; [|exists []; split; [reflexivity|apply not_elem_of_nil]].
        intros Hx. rewrite Hx, Hd in Hd0. congruence.
      - assert (Hne : x <> call_index c).
        { intros Hx. rewrite <- Hx, Hd in Hd0. congruence. }
        destruct (read_device_frame _ _ _ _ _ _ Hr) as (Hdev & _ & Hlog).
        split; [rewrite Hdev by exact Hne; exact Hd|].
        split; [congruence|].
        exists [call_index c]. split; [rewrite Hlog; reflexivity|].
        rewrite list_elem_of_singleton. exact Hne. }
    destruct Hstep as (Hd1 & Hv & new1 & Hlog1 & Hnew1).
    destruct (IH st1 Hd1 vs1 st2 Hcs) as (Hd2 & Hvs & new2 & Hlog2 & Hnew2).
    split; [exact Hd2|]. split; [constructor; assumption|].
    exists (new2 ++ new1). split.
    + rewrite Hlog2, Hlog1. now rewrite app_assoc.
    + rewrite elem_of_app. tauto.
Qed.

Lemma C3_witness :
  (forall k now run,
      netif_func k 0 now run Demo.after_alarm = Some (minus_one, Demo.after_alarm))
  /\ (forall cs vs st',
        do_calls cs Demo.after_alarm = Some (vs, st') ->
        netif_devices st' !! 0%nat = Some (set_enabled false Demo.ent0)
        /\ Forall2 (fun c v => call_index c = 0%nat -> v = minus_one) cs vs
        /\ exists new,
            entstat_calls st' = new ++ entstat_calls Demo.after_alarm /\ 0%nat ∉ new).
Proof.
  refine (C3_disabled_is_terminal 0 (set_enabled false Demo.ent0) Demo.after_alarm _ _).
  - reflexivity.
  - reflexivity.
Defined.

(** ** The resample threshold *)

(** C4 as stated fails right after start-up: within the threshold the
    metric function returns [curr_value], which [ibmnet_metric_init] has
    set to 0.0, while [last_value] (lastRate) holds 1000.0. *)
Lemma C4_counterexample :
  Demo.st0 = Some Demo.after_init
  /\ netif_devices Demo.after_init !! 0%nat = Some Demo.ent0
  /\ enabled Demo.ent0 = true
  /\ leb (time_diff Demo.ent0 (of_Z 103)) (threshold Demo.ent0) = true
  /\ table BYTES_RECEIVED Demo.after_init !! 0%nat = Some Demo.ent0_bytes_received
  /\ netif_func BYTES_RECEIVED 0 (of_Z 103) SIGALRM_fired Demo.after_init
     = Some (zero, Demo.after_init)
  /\ last_value Demo.ent0_bytes_received = of_Z 1000
  /\ zero <> of_Z 1000.
Proof. repeat split; try (vm_compute; reflexivity). discriminate. Qed.

(** C4 (amended). For an enabled device whose elapsed time
    [now - last_read] is [<=] its threshold, a metric function does not
    enter [read_device]: it leaves the state as it is and returns the cached
    [curr_value] of its kind.  ([curr_value] and [last_value] are equal in
    an element that [rate_update] has written.) *)
Theorem C4_cached_within_threshold k i now run st d p :
  netif_devices st !! i = Some d ->
  enabled d = true ->
  leb (time_diff d now) (threshold d) = true ->
  table k st !! i = Some p ->
  netif_func k i now run st = Some (curr_value p, st)
  /\ forall raw delta_t q,
      curr_value (rate_update raw delta_t q) = last_value (rate_update raw delta_t q).
Proof.
  intros Hd He Ht Hp. split; [|reflexivity].
  eapply netif_func_cached; eauto using leb_not_gtb.
Qed.

Lemma C4_witness :
  netif_func BYTES_RECEIVED 0 (of_Z 103) SIGALRM_fired Demo.after_init
  = Some (zero, Demo.after_init).
Proof.
  refine (proj1 (C4_cached_within_threshold BYTES_RECEIVED 0 (of_Z 103) SIGALRM_fired
                   Demo.after_init Demo.ent0 Demo.ent0_bytes_received _ _ _ _)).
  - reflexivity.
  - reflexivity.
  - reflexivity.
  - reflexivity.
Defined.

(** ** What a sample attempt writes *)

Lemma zero_curr_values_inv i st st' :
  zero_curr_values i st = Some st' ->
  netif_devices st' = netif_devices st
  /\ (forall k, table k st' = alter (set_curr_value zero) i (table k st))
  /\ entstat_calls st' = entstat_calls st.
Proof.
  unfold zero_curr_values.
  destruct (array_modify _ i (netif_bytes_received st)) as [br|] eqn:E1; cbn; [|discriminate].
  destruct (array_modify _ i (netif_bytes_sent st)) as [bs|] eqn:E2; cbn; [|discriminate].
  destruct (array_modify _ i (netif_pkts_received st)) as [pr|] eqn:E3; cbn; [|discriminate].
  destruct (array_modify _ i (netif_pkts_sent st)) as [ps|] eqn:E4; cbn; [|discriminate].
  intros [= <-].
  apply array_modify_inv in E1 as [_ ->], E2 as [_ ->], E3 as [_ ->], E4 as [_ ->].
  split; [reflexivity|]. split; [|reflexivity]. now intros [].
Qed.

Lemma zero_curr_values_Some i st :
  wf_state st -> (i < length (netif_devices st))%nat ->
  is_Some (zero_curr_values i st).
Proof.
  intros Hwf Hi. unfold zero_curr_values.
  pose proof (Hwf BYTES_RECEIVED) as H1. pose proof (Hwf BYTES_SENT) as H2.
  pose proof (Hwf PKTS_RECEIVED) as H3. pose proof (Hwf PKTS_SENT) as H4.
  cbn in H1, H2, H3, H4.
  rewrite !array_modify_Some by lia. cbn. eauto.
Qed.

Lemma read_device_last_read i delta_t now run st st' y d :
  read_device i delta_t now run st = Some st' ->
  netif_devices st !! y = Some d ->
  exists d',
    netif_devices st' !! y = Some d'
    /\ last_read d'
       = match run with
         | SIGALRM_fired => last_read d
         | entstat_done _ => if decide (y = i) then now else last_read d
         end.
Proof.
  intros Hr Hd. destruct run as [|f].
  - apply read_device_alarm_inv in Hr as [-> _]. cbn.
    destruct (decide (y = i)) as [->|Hy].
    + rewrite list_lookup_alter_eq, Hd. cbn. eauto.
    + rewrite list_lookup_alter_ne by congruence. eauto.
  - apply read_device_done_inv in Hr as (c & _ & -> & _). cbn.
    destruct (decide (y = i)) as [->|Hy].
    + rewrite list_lookup_alter_eq, Hd. cbn. eauto.
    + rewrite list_lookup_alter_ne by congruence. eauto.
Qed.

(** C5 as stated fails: a sample attempt that SIGALRM cuts short returns
    from [read_device] before [last_read] is assigned; after the attempt at
    110.0 the adapter's [last_read] is still the 100.0 of start-up. *)
Lemma C5_counterexample :
  Demo.st0 = Some Demo.after_init
  /\ do_call {| call_kind := BYTES_SENT; call_index := 0; call_now := of_Z 110;
                call_run := SIGALRM_fired |} Demo.after_init
     = Some (zero, Demo.after_alarm)
  /\ netif_devices Demo.after_init !! 0%nat = Some Demo.ent0
  /\ netif_devices Demo.after_alarm !! 0%nat = Some (set_enabled false Demo.ent0)
  /\ last_read (set_enabled false Demo.ent0) = of_Z 100
  /\ of_Z 100 <> of_Z 110.
Proof. repeat split; try (vm_compute; reflexivity). discriminate. Qed.

(** C5 (amended). A device's [last_read] is written only by a sample
    attempt that runs to the end of [read_device], which sets it to that
    attempt's [now] whether or not a counter could be read; an attempt
    that SIGALRM cuts short leaves every [last_read] as it was, and so does
    a call that does not sample.  This holds for the calls of the metric
    functions and for the iterations of [ibmnet_metric_init]. *)
Theorem C5_last_read_written_by_completed_sample c st v st' y d :
  do_call c st = Some (v, st') ->
  netif_devices st !! y = Some d ->
  exists d',
    netif_devices st' !! y = Some d'
    /\ (call_run c = SIGALRM_fired -> last_read d' = last_read d)
    /\ (last_read d' <> last_read d ->
        y = call_index c /\ enabled d = true
        /\ gtb (time_diff d (call_now c)) (threshold d) = true
        /\ exists f, call_run c = entstat_done f)
    /\ (y = call_index c -> enabled d = true ->
        gtb (time_diff d (call_now c)) (threshold d) = true ->
        (exists f, call_run c = entstat_done f) ->
        last_read d' = call_now c)
    /\ (forall j now run s s' e,
          init_device j now run s = Some s' ->
          netif_devices s !! y = Some e ->
          exists e',
            netif_devices s' !! y = Some e'
            /\ last_read e'
               = match run with
                 | SIGALRM_fired => last_read e
                 | entstat_done _ => if decide (y = j) then now else last_read e
                 end).
Proof.
  intros Hc Hd.
  assert (Hinit : forall j now run s s' e,
            init_device j now run s = Some s' ->
            netif_devices s !! y = Some e ->
            exists e',
              netif_devices s' !! y = Some e'
              /\ last_read e'
                 = match run with
                   | SIGALRM_fired => last_read e
                   | entstat_done _ => if decide (y = j) then now else last_read e
                   end).
  { intros j now run s s' e Hi He. unfold init_device in Hi.
    destruct (read_device j one now run s) as [s1|] eqn:Hr; cbn in Hi; [|discriminate].
    apply zero_curr_values_inv in Hi as (Hds & _ & _). rewrite Hds.
    eapply read_device_last_read; eauto. }
  destruct (netif_func_inv _ _ _ _ _ _ _ Hc)
    as [d0 Hd0 He0 _ -> | d0 p Hd0 He0 Ht0 _ _ -> | d0 p Hd0 He0 Ht0 Hr _ _].
  - exists d. split; [exact Hd|]. split; [reflexivity|]. split; [congruence|].
    split; [|exact Hinit]. intros -> He. congruence.
  - exists d. split; [exact Hd|]. split; [reflexivity|]. split; [congruence|].
    split; [|exact Hinit]. intros -> He Ht. congruence.
  - destruct (read_device_last_read _ _ _ _ _ _ _ _ Hr Hd) as (d' & Hd' & Hl).
    exists d'. split; [exact Hd'|]. unfold do_call in *.
    destruct (call_run c) as [|f] eqn:Hrun.
    + split; [intros _; exact Hl|]. split; [congruence|].
      split; [|exact Hinit]. intros _ _ _ [f Hf]. discriminate.
    + split; [discriminate|]. destruct (decide (y = call_index c)) as [->|Hy].
      * assert (d0 = d) as -> by congruence.
        split; [intros _; repeat split; eauto|]. split; [|exact Hinit]. intros; exact Hl.
      * split; [congruence|]. split; [|exact Hinit]. intros ->. congruence.
Qed.

Lemma C5_witness :
  exists d',
    netif_devices Demo.after_alarm !! 0%nat = Some d'
    /\ (SIGALRM_fired = SIGALRM_fired -> last_read d' = last_read Demo.ent0).
Proof.
  destruct (C5_last_read_written_by_completed_sample
              {| call_kind := BYTES_SENT; call_index := 0; call_now := of_Z 110;
                 call_run := SIGALRM_fired |}
              Demo.after_init zero Demo.after_alarm 0 Demo.ent0
              eq_refl eq_refl) as (d' & Hd' & Ha & _).
  exists d'. split; [exact Hd'|exact Ha].
Defined.

(** C6 as stated fails when the one sampler invocation is cut short by
    SIGALRM: the call at 110.0 for the enabled adapter (elapsed 10.0, over
    the threshold 5.0) enters [read_device] once, and [last_read] is not
    set to 110.0. *)
Lemma C6_counterexample :
  Demo.st0 = Some Demo.after_init
  /\ netif_devices Demo.after_init !! 0%nat = Some Demo.ent0
  /\ enabled Demo.ent0 = true
  /\ gtb (time_diff Demo.ent0 (of_Z 110)) (threshold Demo.ent0) = true
  /\ netif_func PKTS_SENT 0 (of_Z 110) SIGALRM_fired Demo.after_init
     = Some (zero, Demo.after_alarm)
  /\ entstat_calls Demo.after_alarm = 0%nat :: entstat_calls Demo.after_init
  /\ (last_read <$> netif_devices Demo.after_alarm !! 0%nat) = Some (of_Z 100)
  /\ of_Z 100 <> of_Z 110.
Proof. repeat split; try (vm_compute; reflexivity). discriminate. Qed.

(** C6 (amended). For an enabled device, a call of any one metric function
    whose elapsed time is over the threshold enters [read_device] exactly
    once, for that device, and leaves the records of every other device as
    they are.  When the pipeline is read, that one run rewrites each of the
    device's four rate states whose counter is not -1 by [rate_update] with
    the same elapsed time, keeps the others, and sets [last_read] to [now];
    when SIGALRM cuts it short, no rate state and no [last_read] changes and
    the device's [enabled] flag is cleared. *)
Theorem C6_one_sample_for_all_four k i now run st d :
  wf_state st ->
  netif_devices st !! i = Some d ->
  enabled d = true ->
  gtb (time_diff d now) (threshold d) = true ->
  parses run = true ->
  exists v st',
    netif_func k i now run st = Some (v, st')
    /\ entstat_calls st' = i :: entstat_calls st
    /\ (forall y, y <> i ->
          netif_devices st' !! y = netif_devices st !! y
          /\ forall k', table k' st' !! y = table k' st !! y)
    /\ match run with
       | entstat_done f =>
           exists c,
             read_counters f = Some c
             /\ netif_devices st' !! i = Some (set_last_read now d)
             /\ forall k',
                 table k' st' !! i
                 = (if counter k' c =? -1 then id
                    else rate_update (counter k' c) (time_diff d now))
                   <$> table k' st !! i
       | SIGALRM_fired =>
           netif_devices st' !! i = Some (set_enabled false d)
           /\ forall k', table k' st' = table k' st
       end.
Proof.
  intros Hwf Hd He Ht Hp.
  destruct (netif_func_total k i now run st Hwf
              ltac:(eapply lookup_lt_Some; eauto) Hp) as [[v st'] Hf].
  exists v, st'. split; [exact Hf|].
  destruct (netif_func_inv _ _ _ _ _ _ _ Hf)
    as [d0 Hd0 He0 _ _ | d0 p Hd0 He0 Ht0 _ _ _ | d0 p Hd0 He0 Ht0 Hr _ _];
    try congruence.
  assert (d0 = d) as -> by congruence.
  destruct (read_device_frame _ _ _ _ _ _ Hr) as (Hdev & Htab & Hlog).
  split; [exact Hlog|]. split; [intros y Hy; split; auto|].
  destruct run as [|f].
  - apply read_device_alarm_inv in Hr as [-> _]. split.
    + cbn. now rewrite list_lookup_alter_eq, Hd.
    + intros k'. apply table_disabled_state.
  - apply read_device_done_inv in Hr as (c & Hc & -> & _). exists c.
    split; [exact Hc|]. split.
    + cbn. now rewrite list_lookup_alter_eq, Hd.
    + intros k'. rewrite table_sampled_state. apply sampled_table_lookup.
Qed.

Lemma C6_witness :
  exists v st',
    netif_func BYTES_SENT 0 (of_Z 110) (entstat_done Demo.packets_only)
      Demo.after_init = Some (v, st')
    /\ entstat_calls st' = 0%nat :: entstat_calls Demo.after_init
    /\ (forall y, y <> 0%nat ->
          netif_devices st' !! y = netif_devices Demo.after_init !! y
          /\ forall k', table k' st' !! y = table k' Demo.after_init !! y)
    /\ exists c,
        read_counters Demo.packets_only = Some c
        /\ netif_devices st' !! 0%nat = Some (set_last_read (of_Z 110) Demo.ent0)
        /\ forall k',
            table k' st' !! 0%nat
            = (if counter k' c =? -1 then id
               else rate_update (counter k' c) (time_diff Demo.ent0 (of_Z 110)))
              <$> table k' Demo.after_init !! 0%nat.
Proof.
  refine (C6_one_sample_for_all_four BYTES_SENT 0 (of_Z 110)
            (entstat_done Demo.packets_only) Demo.after_init Demo.ent0
            wf_after_init _ _ _ _).
  - reflexivity.
  - reflexivity.
  - reflexivity.
  - reflexivity.
Defined.

(** ** The invariant of the rate states *)

Lemma nonneg_raw_range f c k :
  read_counters f = Some c -> nonneg_counters c = true -> counter k c <> -1 ->
  0 <= counter k c <= LLONG_MAX.
Proof.
  intros Hc Hn Hraw. pose proof (read_counters_in_ll f c k Hc) as [_ Hmax].
  split; [|exact Hmax].
  unfold nonneg_counters in Hn. rewrite forallb_forall in Hn.
  assert (Hin : In k all_kinds) by (destruct k; cbn; tauto).
  specialize (Hn k Hin). unfold nonneg_raw in Hn.
  apply orb_true_iff in Hn as [?%Z.eqb_eq | ?%Z.leb_le]; [contradiction|assumption].
Qed.

Lemma rate_update_ok raw delta_t p :
  0 <= raw <= LLONG_MAX -> gtb delta_t zero = true ->
  rate_ok p -> rate_ok (rate_update raw delta_t p).
Proof.
  intros Hraw Ht [Hlast Hval]. unfold rate_ok, rate_update. cbn.
  split; [exact Hraw|].
  rewrite sub_ll_exact by (unfold in_ll, LLONG_MIN, LLONG_MAX in *; lia).
  destruct (Z.ltb_spec (raw - last_total_value p) 0) as [_|Hd]; [exact Hval|].
  apply rate_nonneg; [lia|exact Ht].
Qed.

Lemma read_device_ok i delta_t now run st st' :
  state_ok st -> nonneg_run run = true -> gtb delta_t zero = true ->
  read_device i delta_t now run st = Some st' ->
  state_ok st'.
Proof.
  intros (Hwf & Hthr & Hrates) Hn Ht Hr.
  destruct (read_device_wf _ _ _ _ _ _ Hwf Hr) as [Hwf' _].
  split; [exact Hwf'|]. destruct run as [|f].
  - apply read_device_alarm_inv in Hr as [-> _]. split.
    + intros y d'. cbn. destruct (decide (y = i)) as [->|Hy].
      * rewrite list_lookup_alter_eq.
        destruct (netif_devices st !! i) as [d|] eqn:Hd; cbn; [|discriminate].
        intros [= <-]. cbn. eauto.
      * rewrite list_lookup_alter_ne by congruence. apply Hthr.
    + intros k y p. rewrite table_disabled_state. apply Hrates.
  - apply read_device_done_inv in Hr as (c & Hc & -> & _). cbn in Hn.
    rewrite Hc in Hn. split.
    + intros y d'. cbn. destruct (decide (y = i)) as [->|Hy].
      * rewrite list_lookup_alter_eq.
        destruct (netif_devices st !! i) as [d|] eqn:Hd; cbn; [|discriminate].
        intros [= <-]. cbn. eauto.
      * rewrite list_lookup_alter_ne by congruence. apply Hthr.
    + intros k y p. rewrite table_sampled_state.
      destruct (decide (y = i)) as [->|Hy].
      * rewrite sampled_table_lookup.
        destruct (table k st !! i) as [q|] eqn:Hq; cbn; [|discriminate].
        intros [= <-]. destruct (Z.eqb_spec (counter k c) (-1)) as [_|Hraw].
        -- eapply Hrates; eauto.
        -- apply rate_update_ok; eauto using nonneg_raw_range.
      * rewrite sampled_table_lookup_ne by congruence. apply Hrates.
Qed.

Lemma zero_curr_values_ok i st st' :
  state_ok st -> zero_curr_values i st = Some st' -> state_ok st'.
Proof.
  intros (Hwf & Hthr & Hrates) Hz.
  apply zero_curr_values_inv in Hz as (Hds & Htab & _).
  split; [|split].
  - intros k. rewrite Htab, Hds, length_alter. apply Hwf.
  - intros y d. rewrite Hds. apply Hthr.
  - intros k y p. rewrite Htab. destruct (decide (y = i)) as [->|Hy].
    + rewrite list_lookup_alter_eq.
      destruct (table k st !! i) as [q|] eqn:Hq; cbn; [|discriminate].
      intros [= <-]. exact (Hrates _ _ _ Hq).
    + rewrite list_lookup_alter_ne by congruence. apply Hrates.
Qed.

Lemma init_device_ok i now run st st' :
  state_ok st -> nonneg_run run = true ->
  init_device i now run st = Some st' -> state_ok st'.
Proof.
  intros Hok Hn Hi. unfold init_device in Hi.
  destruct (read_device i one now run st) as [st1|] eqn:Hr; cbn in Hi; [|discriminate].
  eapply zero_curr_values_ok; [|exact Hi].
  apply (read_device_ok i one now run st st1 Hok Hn eq_refl Hr).
Qed.

Lemma init_loop_ok todo : forall i now runs st st',
  state_ok st -> (forall j, nonneg_run (runs j) = true) ->
  init_loop todo i now runs st = Some st' -> state_ok st'.
Proof.
  induction todo as [|todo IH]; intros i now runs st st' Hok Hn Hl; cbn in Hl.
  - now injection Hl as <-.
  - destruct (init_device i now (runs i) st) as [st1|] eqn:Hi; cbn in Hl; [|discriminate].
    eapply IH; [|exact Hn|exact Hl]. eapply init_device_ok; eauto.
Qed.

Lemma length_detect lsdev heap :
  length (detect_and_verify_netif_devices lsdev heap) = length lsdev.
Proof. unfold detect_and_verify_netif_devices. apply length_imap. Qed.

Lemma ibmnet_metric_init_ok lsdev heap now runs st :
  (forall j, nonneg_run (runs j) = true) ->
  ibmnet_metric_init lsdev heap now runs = Some st -> state_ok st.
Proof.
  intros Hn Hi. unfold ibmnet_metric_init in Hi.
  eapply init_loop_ok; [|exact Hn|exact Hi]. split; [|split].
  - intros k. destruct k; cbn; unfold init_metric; now rewrite length_replicate.
  - intros y d. cbn. unfold detect_and_verify_netif_devices.
    rewrite list_lookup_imap.
    destruct (lsdev !! y); cbn; [|discriminate]. now intros [= <-].
  - intros k y p Hp.
    assert (Hp' : init_metric (length (detect_and_verify_netif_devices lsdev heap)) !! y
                  = Some p) by (destruct k; exact Hp).
    unfold init_metric in Hp'. apply lookup_replicate in Hp' as [-> _].
    split; cbn; [unfold LLONG_MAX; lia|reflexivity].
Qed.

Lemma do_call_ok c st v st' :
  state_ok st -> nonneg_run (call_run c) = true ->
  do_call c st = Some (v, st') -> state_ok st'.
Proof.
  intros Hok Hn Hc.
  destruct (netif_func_inv _ _ _ _ _ _ _ Hc)
    as [d0 Hd0 He0 _ -> | d0 p Hd0 He0 Ht0 _ _ -> | d0 p Hd0 He0 Ht0 Hr _ _];
    try exact Hok.
  eapply read_device_ok; [exact Hok|exact Hn| |exact Hr].
  destruct Hok as (_ & Hthr & _). rewrite (Hthr _ _ Hd0) in Ht0.
  now apply gtb_five_gtb_zero.
Qed.

Lemma do_calls_ok cs : forall st vs st',
  state_ok st -> Forall (fun c => nonneg_run (call_run c) = true) cs ->
  do_calls cs st = Some (vs, st') -> state_ok st'.
Proof.
  induction cs as [|c cs IH]; intros st vs st' Hok Hn Hrun; cbn in Hrun.
  - now injection Hrun as _ <-.
  - destruct (do_call c st) as [[v st1]|] eqn:Hc; cbn in Hrun; [|discriminate].
    destruct (do_calls cs st1) as [[vs1 st2]|] eqn:Hcs; cbn in Hrun; [|discriminate].
    injection Hrun as _ <-. inversion Hn; subst.
    eapply IH; [|eassumption|exact Hcs]. eapply do_call_ok; eauto.
Qed.

(** An element that [read_device] changes is rewritten by [rate_update],
    from an available counter of its own device. *)
Lemma read_device_rewrites i delta_t now run s s' k y p p' :
  read_device i delta_t now run s = Some s' ->
  table k s !! y = Some p -> table k s' !! y = Some p' -> p' <> p ->
  y = i
  /\ exists f cn,
      run = entstat_done f /\ read_counters f = Some cn /\ counter k cn <> -1
      /\ p' = rate_update (counter k cn) delta_t p.
Proof.
  intros Hr Hp Hp' Hne. destruct run as [|f].
  - apply read_device_alarm_inv in Hr as [-> _].
    rewrite table_disabled_state in Hp'. congruence.
  - apply read_device_done_inv in Hr as (c & Hc & -> & _).
    rewrite table_sampled_state in Hp'.
    destruct (decide (y = i)) as [->|Hy].
    + split; [reflexivity|]. exists f, c.
      rewrite sampled_table_lookup, Hp in Hp'.
      destruct (Z.eqb_spec (counter k c) (-1)) as [_|Hraw]; cbn in Hp'; [congruence|].
      injection Hp' as <-. auto.
    + rewrite sampled_table_lookup_ne in Hp' by congruence. congruence.
Qed.

(** C8. In every state that [ibmnet_metric_init] and any calls of the
    metric functions reach while the counters read are not negative, every
    rate state's [last_value] (lastRate) satisfies [>= 0.0].  (The elapsed
    time of every update is positive by the code itself: 1.0 at start-up,
    over the threshold 5.0 in a metric function.)  And [last_value] changes
    only by [rate_update]: a call, or an iteration of the start-up loop,
    that changes it has read an available counter for that kind of that
    device and written the element by [rate_update]. *)
Theorem C8_last_value_nonneg lsdev heap now0 runs st0 cs vs st :
  (forall j, nonneg_run (runs j) = true) ->
  Forall (fun c => nonneg_run (call_run c) = true) cs ->
  ibmnet_metric_init lsdev heap now0 runs = Some st0 ->
  do_calls cs st0 = Some (vs, st) ->
  (forall k i p, table k st !! i = Some p -> nonneg (last_value p) = true)
  /\ (forall c s v s' k i p p',
        do_call c s = Some (v, s') ->
        table k s !! i = Some p -> table k s' !! i = Some p' ->
        last_value p' <> last_value p ->
        i = call_index c
        /\ exists d f cn,
            netif_devices s !! i = Some d
            /\ call_run c = entstat_done f
            /\ read_counters f = Some cn
            /\ counter k cn <> -1
            /\ p' = rate_update (counter k cn) (time_diff d (call_now c)) p)
  /\ (forall j now run s s' k i p p',
        init_device j now run s = Some s' ->
        table k s !! i = Some p -> table k s' !! i = Some p' ->
        last_value p' <> last_value p ->
        i = j
        /\ exists f cn,
            run = entstat_done f
            /\ read_counters f = Some cn
            /\ counter k cn <> -1
            /\ last_value p' = last_value (rate_update (counter k cn) one p)).
Proof.
  intros Hruns Hcs Hinit Hrun. split; [|split].
  - pose proof (ibmnet_metric_init_ok _ _ _ _ _ Hruns Hinit) as Hok0.
    pose proof (do_calls_ok _ _ _ _ Hok0 Hcs Hrun) as (_ & _ & Hrates).
    intros k i p Hp. exact (proj2 (Hrates k i p Hp)).
  - intros c s v s' k i p p' Hc Hp Hp' Hne.
    destruct (netif_func_inv _ _ _ _ _ _ _ Hc)
      as [d0 Hd0 He0 _ -> | d0 q Hd0 He0 Ht0 _ _ -> | d0 q Hd0 He0 Ht0 Hr _ _];
      try congruence.
    assert (Hne' : p' <> p) by congruence.
    destruct (read_device_rewrites _ _ _ _ _ _ _ _ _ _ Hr Hp Hp' Hne')
      as (-> & f & cn & Hf & Hcn & Hraw & ->).
    split; [reflexivity|]. exists d0, f, cn. auto.
  - intros j now run s s' k i p p' Hi Hp Hp' Hne. unfold init_device in Hi.
    destruct (read_device j one now run s) as [s1|] eqn:Hr; cbn in Hi; [|discriminate].
    apply zero_curr_values_inv in Hi as (_ & Htab & _).
    assert (Hq : exists q, table k s1 !! i = Some q /\ last_value p' = last_value q).
    { rewrite Htab in Hp'. destruct (decide (i = j)) as [->|Hy].
      - rewrite list_lookup_alter_eq in Hp'.
        destruct (table k s1 !! j) as [q|]; cbn in Hp'; [|discriminate].
        injection Hp' as <-. eauto.
      - rewrite list_lookup_alter_ne in Hp' by congruence. eauto. }
    destruct Hq as (q & Hq & Hlast).
    assert (Hne' : q <> p) by congruence.
    destruct (read_device_rewrites _ _ _ _ _ _ _ _ _ _ Hr Hp Hq Hne')
      as (-> & f & cn & Hf & Hcn & Hraw & ->).
    split; [reflexivity|]. exists f, cn. auto.
Qed.

Lemma C8_witness :
  do_calls [Demo.c2; Demo.c3] Demo.after_init
  = Some ([of_Z 200; of_Z 200], Demo.after_c2_c3)
  /\ forall k i p,
      table k Demo.after_c2_c3 !! i = Some p -> nonneg (last_value p) = true.
Proof.
  split; [reflexivity|].
  refine (proj1 (C8_last_value_nonneg ["ent0"%string] (fun _ => S754_nan) (of_Z 100)
                   (fun _ => Demo.out ("7 9" ++ Demo.nl) ("500 1000" ++ Demo.nl))
                   Demo.after_init [Demo.c2; Demo.c3] [of_Z 200; of_Z 200]
                   Demo.after_c2_c3 _ _ _ _)).
  - intros j. reflexivity.
  - repeat constructor.
  - reflexivity.
  - reflexivity.
Defined.

(** ** Start-up *)

Lemma init_device_lookup j now run s s' :
  init_device j now run s = Some s' ->
  (forall k y,
      table k s' !! y
      = if decide (y = j) then init_perf k run <$> table k s !! y
        else table k s !! y)
  /\ (forall y,
        netif_devices s' !! y
        = if decide (y = j) then init_dev now run <$> netif_devices s !! y
          else netif_devices s !! y).
Proof.
  intros Hi. unfold init_device in Hi.
  destruct (read_device j one now run s) as [s1|] eqn:Hr; cbn in Hi; [|discriminate].
  apply zero_curr_values_inv in Hi as (Hds & Htab & _). split.
  - intros k y. rewrite Htab. destruct (decide (y = j)) as [->|Hy].
    + rewrite list_lookup_alter_eq. unfold init_perf. destruct run as [|f].
      * apply read_device_alarm_inv in Hr as [-> _].
        now rewrite table_disabled_state.
      * apply read_device_done_inv in Hr as (c & Hc & -> & _).
        rewrite table_sampled_state, sampled_table_lookup, Hc.
        destruct (table k s !! j); cbn; [|reflexivity].
        now destruct (counter k c =? -1).
    + rewrite list_lookup_alter_ne by congruence.
      destruct (read_device_frame _ _ _ _ _ _ Hr) as (_ & Hfr & _). now apply Hfr.
  - intros y. rewrite Hds. destruct (decide (y = j)) as [->|Hy].
    + destruct run as [|f].
      * apply read_device_alarm_inv in Hr as [-> _]. cbn.
        apply list_lookup_alter_eq.
      * apply read_device_done_inv in Hr as (c & Hc & -> & _). cbn.
        apply list_lookup_alter_eq.
    + destruct (read_device_frame _ _ _ _ _ _ Hr) as (Hfr & _ & _). now apply Hfr.
Qed.

Lemma init_loop_lookup todo : forall i0 now runs s s',
  init_loop todo i0 now runs s = Some s' ->
  (forall k y,
      table k s' !! y
      = if decide (i0 <= y < i0 + todo)%nat then init_perf k (runs y) <$> table k s !! y
        else table k s !! y)
  /\ (forall y,
        netif_devices s' !! y
        = if decide (i0 <= y < i0 + todo)%nat
          then init_dev now (runs y) <$> netif_devices s !! y
          else netif_devices s !! y).
Proof.
  induction todo as [|todo IH]; intros i0 now runs s s' Hl; cbn in Hl.
  - injection Hl as <-. split; intros; case_decide; [lia|reflexivity|lia|reflexivity].
  - destruct (init_device i0 now (runs i0) s) as [s1|] eqn:Hi; cbn in Hl; [|discriminate].
    destruct (init_device_lookup _ _ _ _ _ Hi) as [Ht1 Hd1].
    destruct (IH _ _ _ _ _ Hl) as [Ht Hd]. split.
    + intros k y. rewrite Ht, Ht1.
      repeat case_decide; subst; try lia; reflexivity.
    + intros y. rewrite Hd, Hd1.
      repeat case_decide; subst; try lia; reflexivity.
Qed.

Lemma init_loop_wf todo : forall i0 now runs s s',
  wf_state s -> init_loop todo i0 now runs s = Some s' ->
  wf_state s' /\ length (netif_devices s') = length (netif_devices s).
Proof.
  induction todo as [|todo IH]; intros i0 now runs s s' Hwf Hl; cbn in Hl.
  - injection Hl as <-. auto.
  - destruct (init_device i0 now (runs i0) s) as [s1|] eqn:Hi; cbn in Hl; [|discriminate].
    unfold init_device in Hi.
    destruct (read_device i0 one now (runs i0) s) as [s2|] eqn:Hr; cbn in Hi; [|discriminate].
    destruct (read_device_wf _ _ _ _ _ _ Hwf Hr) as [Hwf2 Hl2].
    apply zero_curr_values_inv in Hi as (Hds & Htab & _).
    assert (Hwf1 : wf_state s1).
    { intros k. rewrite Htab, Hds, length_alter. apply Hwf2. }
    destruct (IH _ _ _ _ _ Hwf1 Hl) as [Hwf' Hl']. split; [exact Hwf'|].
    rewrite Hl', Hds. exact Hl2.
Qed.

Lemma ibmnet_metric_init_lookup lsdev heap now runs st0 :
  ibmnet_metric_init lsdev heap now runs = Some st0 ->
  wf_state st0
  /\ (forall k i,
        table k st0 !! i
        = if decide (i < length lsdev)%nat
          then Some (init_perf k (runs i)
                       {| last_value := zero; curr_value := zero;
                          last_total_value := 0 |})
          else None)
  /\ (forall i name,
        lsdev !! i = Some name ->
        netif_devices st0 !! i
        = Some (init_dev now (runs i)
                  {| enabled := true; last_read := heap i;
                     threshold := MIN_THRESHOLD; devName := name |})).
Proof.
  intros Hi. unfold ibmnet_metric_init in Hi. rewrite length_detect in Hi.
  match type of Hi with init_loop _ _ _ _ ?s = _ => set (s0 := s) in * end.
  assert (Hwf0 : wf_state s0).
  { intros k. destruct k; cbn; unfold init_metric;
      now rewrite length_replicate, length_detect. }
  destruct (init_loop_wf _ _ _ _ _ _ Hwf0 Hi) as [Hwf _].
  destruct (init_loop_lookup _ _ _ _ _ _ Hi) as [Ht Hd].
  split; [exact Hwf|]. split.
  - intros k i. rewrite Ht.
    assert (Hk : table k s0 = init_metric (length lsdev)) by (destruct k; reflexivity).
    rewrite Hk. unfold init_metric. repeat case_decide; try lia.
    + now rewrite lookup_replicate_2 by lia.
    + apply lookup_replicate_None. lia.
  - intros i name Hn. rewrite Hd. cbn.
    pose proof (lookup_lt_Some _ _ _ Hn). case_decide; [|lia].
    unfold detect_and_verify_netif_devices. rewrite list_lookup_imap, Hn.
    reflexivity.
Qed.

(** C10. After [ibmnet_metric_init] every rate state has [curr_value] 0.0.
    For a device whose start-up sample read an available counter [raw0]
    that is not negative, [last_value] is [raw0 / 1.0], which is the double
    [(double) raw0] and differs from 0.0 when [raw0] is positive, and
    [last_total_value] is [raw0]; a metric function called within the
    threshold returns 0.0; and when the first resample computes a negative
    delta against [raw0], the metric function returns [raw0 / 1.0]. *)
Theorem C10_startup_rates lsdev heap now0 runs st0 :
  ibmnet_metric_init lsdev heap now0 runs = Some st0 ->
  (forall k i p, table k st0 !! i = Some p -> curr_value p = zero)
  /\ (forall k i name f c,
        lsdev !! i = Some name ->
        runs i = entstat_done f ->
        read_counters f = Some c ->
        counter k c <> -1 ->
        0 <= counter k c ->
        let raw0 := counter k c in
        let d := {| enabled := true; last_read := now0;
                    threshold := MIN_THRESHOLD; devName := name |} in
        netif_devices st0 !! i = Some d
        /\ table k st0 !! i
           = Some {| last_value := div (of_Z raw0) one; curr_value := zero;
                     last_total_value := raw0 |}
        /\ div (of_Z raw0) one = of_Z raw0
        /\ (0 < raw0 -> of_Z raw0 <> zero)
        /\ (forall now run,
              leb (time_diff d now) (threshold d) = true ->
              netif_func k i now run st0 = Some (zero, st0))
        /\ (forall now f' c',
              gtb (time_diff d now) (threshold d) = true ->
              read_counters f' = Some c' ->
              counter k c' <> -1 ->
              sub_ll (counter k c') raw0 < 0 ->
              exists st',
                netif_func k i now (entstat_done f') st0
                = Some (div (of_Z raw0) one, st'))).
Proof.
  intros Hinit.
  destruct (ibmnet_metric_init_lookup _ _ _ _ _ Hinit) as (Hwf & Ht & Hd).
  split.
  - intros k i p. rewrite Ht. case_decide; [|discriminate]. now intros [= <-].
  - intros k i name f c Hn Hrun Hc Hraw H0 raw0 d.
    pose proof (lookup_lt_Some _ _ _ Hn) as Hlt.
    assert (Hdev : netif_devices st0 !! i = Some d).
    { rewrite (Hd i name Hn), Hrun. reflexivity. }
    assert (Htab : table k st0 !! i
                   = Some {| last_value := div (of_Z raw0) one; curr_value := zero;
                             last_total_value := raw0 |}).
    { rewrite Ht. case_decide; [|lia]. unfold init_perf. rewrite Hrun, Hc.
      rewrite (raw_available _ Hraw). unfold rate_update. cbn.
      pose proof (read_counters_in_ll f c k Hc) as Hr.
      rewrite sub_ll_exact by (rewrite Z.sub_0_r; exact Hr).
      rewrite Z.sub_0_r. fold raw0.
      destruct (Z.ltb_spec raw0 0) as [?|_]; [unfold raw0 in *; lia|reflexivity]. }
    pose proof (read_counters_in_ll f c k Hc) as [_ Hmax]. fold raw0 in Hmax.
    split; [exact Hdev|]. split; [exact Htab|].
    split; [apply div_one_of_Z; unfold raw0; lia|].
    split; [intros Hpos; apply of_Z_nonzero; lia|]. split.
    + intros now run Hle.
      apply (netif_func_cached k i now run st0 d _ Hdev eq_refl
               (leb_not_gtb _ _ Hle) Htab).
    + intros now f' c' Hgt Hc' Hraw' Hneg.
      rewrite (netif_func_resample k i now _ st0 d Hdev eq_refl Hgt).
      rewrite (read_device_done _ _ _ _ c') by (try assumption; rewrite <- (Hwf k);
        eapply lookup_lt_Some; eauto).
      cbn. rewrite table_sampled_state, sampled_table_lookup, Htab.
      rewrite (raw_available _ Hraw'). cbn. unfold rate_update. cbn.
      destruct (Z.ltb_spec (sub_ll (counter k c') raw0) 0) as [_|?]; [|lia].
      eauto.
Qed.

Lemma C10_witness :
  (forall k i p, table k Demo.after_init !! i = Some p -> curr_value p = zero)
  /\ table BYTES_RECEIVED Demo.after_init !! 0%nat
     = Some {| last_value := of_Z 1000; curr_value := zero;
               last_total_value := 1000 |}
  /\ (forall now run,
        leb (time_diff Demo.ent0 now) (threshold Demo.ent0) = true ->
        netif_func BYTES_RECEIVED 0 now run Demo.after_init
        = Some (zero, Demo.after_init))
  /\ exists st',
      netif_func BYTES_RECEIVED 0 (of_Z 110) (entstat_done Demo.fewer)
        Demo.after_init = Some (of_Z 1000, st').
Proof.
  destruct (C10_startup_rates ["ent0"%string] (fun _ => S754_nan) (of_Z 100)
              (fun _ => Demo.out ("7 9" ++ Demo.nl) ("500 1000" ++ Demo.nl))
              Demo.after_init eq_refl) as [Hcurr Hdev].
  split; [exact Hcurr|].
  destruct (Hdev BYTES_RECEIVED 0%nat "ent0"%string
              (popen_stream ["7 9" ++ Demo.nl; "500 1000" ++ Demo.nl]%string)
              {| c_bytes_received := 1000; c_bytes_sent := 500;
                 c_pkts_received := 9; c_pkts_sent := 7 |}
              eq_refl eq_refl eq_refl ltac:(discriminate) ltac:(discriminate))
    as (_ & Htab & _ & _ & Hcached & Hheld).
  split; [exact Htab|]. split; [exact Hcached|].
  exact (Hheld (of_Z 110) Demo.fewer Demo.fewer_counters eq_refl eq_refl
           ltac:(discriminate) eq_refl).
Defined.

(** ** The embedded functions return *)

Lemma do_call_wf c st v st' :
  wf_state st -> do_call c st = Some (v, st') ->
  wf_state st' /\ length (netif_devices st') = length (netif_devices st).
Proof.
  intros Hwf Hc.
  destruct (netif_func_inv _ _ _ _ _ _ _ Hc)
    as [d0 _ _ _ -> | d0 p _ _ _ _ _ -> | d0 p _ _ _ Hr _ _]; auto.
  eapply read_device_wf; eauto.
Qed.

(** Calls for devices of the table, on output that can be read, all
    return. *)
Lemma do_calls_total cs : forall st,
  wf_state st ->
  Forall (fun c => (call_index c < length (netif_devices st))%nat
                   /\ parses (call_run c) = true) cs ->
  is_Some (do_calls cs st).
Proof.
  induction cs as [|c cs IH]; intros st Hwf Hcs; cbn; [eauto|].
  inversion Hcs as [|? ? [Hi Hp] Hrest]; subst.
  destruct (netif_func_total (call_kind c) _ (call_now c) _ st Hwf Hi Hp)
    as [[v st1] Hc].
  unfold do_call. rewrite Hc. cbn.
  destruct (do_call_wf c st v st1 Hwf Hc) as [Hwf1 Hl1].
  destruct (IH st1 Hwf1) as [[vs st2] Hrun].
  { rewrite Hl1. exact Hrest. }
  rewrite Hrun. cbn. eauto.
Qed.

Lemma init_loop_total todo : forall i0 now runs s,
  wf_state s -> (i0 + todo <= length (netif_devices s))%nat ->
  (forall j, parses (runs j) = true) ->
  is_Some (init_loop todo i0 now runs s).
Proof.
  induction todo as [|todo IH]; intros i0 now runs s Hwf Hlen Hp; cbn; [eauto|].
  assert (Hi : (i0 < length (netif_devices s))%nat) by lia.
  assert (Hr : is_Some (read_device i0 one now (runs i0) s)).
  { specialize (Hp i0). destruct (runs i0) as [|f].
    - rewrite read_device_alarm by exact Hi. eauto.
    - cbn in Hp. apply bool_decide_eq_true in Hp as [c Hc].
      rewrite (read_device_done _ _ _ _ c) by assumption. eauto. }
  destruct Hr as [s1 Hr].
  destruct (read_device_wf _ _ _ _ _ _ Hwf Hr) as [Hwf1 Hl1].
  destruct (zero_curr_values_Some i0 s1 Hwf1 ltac:(lia)) as [s2 Hz].
  unfold init_device. rewrite Hr. cbn. rewrite Hz. cbn.
  apply zero_curr_values_inv in Hz as (Hds & Htab & _).
  apply IH; [|rewrite Hds; lia|exact Hp].
  intros k. rewrite Htab, Hds, length_alter. apply Hwf1.
Qed.

(** Start-up returns whenever the output of every entstat run can be
    read. *)
Lemma ibmnet_metric_init_total lsdev heap now runs :
  (forall j, parses (runs j) = true) ->
  is_Some (ibmnet_metric_init lsdev heap now runs).
Proof.
  intros Hp. unfold ibmnet_metric_init. apply init_loop_total; [|cbn; lia|exact Hp].
  intros k. destruct k; cbn; unfold init_metric; now rewrite length_replicate.
Qed.

(** * Further properties of the module *)

(** ** Strings *)

Lemma string_length_app s t :
  String.length (s ++ t) = (String.length s + String.length t)%nat.
Proof. induction s as [|a s IH]; cbn; [reflexivity|now rewrite IH]. Qed.

Lemma string_app_assoc (s t u : string) : ((s ++ t) ++ u = s ++ (t ++ u))%string.
Proof. induction s as [|a s IH]; cbn; [reflexivity|now rewrite IH]. Qed.

Lemma index_split_app c h t :
  has_char c h = false -> index_split c (h ++ String c t) = Some (h, t).
Proof.
  induction h as [|a h IH]; cbn.
  - intros _. now rewrite Ascii.eqb_refl.
  - intros H. apply orb_false_iff in H as [Ha Hh]. rewrite Ha, (IH Hh). reflexivity.
Qed.

Lemma has_char_split c s :
  has_char c s = true ->
  exists h t, s = (h ++ String c t)%string /\ has_char c h = false.
Proof.
  induction s as [|a s IH]; cbn; [discriminate|].
  destruct (Ascii.eqb_spec a c) as [->|Hne]; cbn.
  - intros _. exists EmptyString, s. split; reflexivity.
  - intros H. destruct (IH H) as (h & t & -> & Hh). exists (String a h), t.
    split; [reflexivity|]. cbn. destruct (Ascii.eqb_spec a c); [contradiction|exact Hh].
Qed.

Lemma truncate_last_app s c :
  truncate_last (s ++ String c EmptyString) = s.
Proof.
  induction s as [|a s IH]; [reflexivity|].
  cbn [append truncate_last]. rewrite IH.
  destruct s; reflexivity.
Qed.

(** ** The metric definitions *)

Lemma length_kind_metric_info udp devs k :
  length (kind_metric_info udp devs k) = length devs.
Proof. unfold kind_metric_info, init_metric_info. apply length_map. Qed.

Lemma kind_metric_info_lookup udp devs k i :
  kind_metric_info udp devs k !! i
  = (fun d => {| gmi_name := devName d ++ "_" ++ kind_name k;
                 gmi_tmax := 60;
                 gmi_type := GANGLIA_VALUE_DOUBLE;
                 gmi_units := kind_units k;
                 gmi_slope := "both";
                 gmi_fmt := "%.1f";
                 gmi_msg_size := udp + 16;
                 gmi_desc := devName d ++ " " ++ kind_desc k |}) <$> devs !! i.
Proof.
  unfold kind_metric_info, init_metric_info.
  change (map ?f devs) with (f <$> devs). apply list_lookup_fmap.
Qed.

Lemma metrics_info_lookup udp devs k i :
  (i < length devs)%nat ->
  ibmnet_metrics_info udp devs !! (kind_pos k * length devs + i)%nat
  = Some (kind_metric_info udp devs k !! i).
Proof.
  intros Hi. unfold ibmnet_metrics_info.
  pose proof (length_kind_metric_info udp devs) as Hl.
  rewrite lookup_app_l
    by (rewrite length_fmap, !length_app, !Hl; destruct k; cbn; lia).
  rewrite list_lookup_fmap.
  assert (Hs : is_Some (kind_metric_info udp devs k !! i))
    by (apply lookup_lt_is_Some_2; rewrite Hl; exact Hi).
  destruct Hs as [g Hg]. rewrite Hg.
  destruct k; cbn [kind_pos];
    repeat (first [ rewrite lookup_app_l by (rewrite ?Hl; lia)
                  | rewrite lookup_app_r by (rewrite ?Hl; lia); rewrite ?Hl ]);
    match goal with
    | |- Some <$> _ !! ?n = _ => replace n with i by lia
    end; now rewrite Hg.
Qed.

(** X1. [metrics_info] holds four definitions per device and the
    terminator: the definition of kind [k] for device [i] is at index
    [kind_pos k * netif_count + i], named [devName_kind], with the kind's
    unit; every slot before the terminator is one of these; with no device
    the terminator is the only slot. *)
Theorem X1_metrics_info_layout udp devs :
  length (ibmnet_metrics_info udp devs) = (4 * length devs + 1)%nat
  /\ ibmnet_metrics_info udp devs !! (4 * length devs)%nat = Some None
  /\ (forall k i d,
        devs !! i = Some d ->
        ibmnet_metrics_info udp devs !! (kind_pos k * length devs + i)%nat
        = Some (Some {| gmi_name := devName d ++ "_" ++ kind_name k;
                        gmi_tmax := 60;
                        gmi_type := GANGLIA_VALUE_DOUBLE;
                        gmi_units := kind_units k;
                        gmi_slope := "both";
                        gmi_fmt := "%.1f";
                        gmi_msg_size := udp + 16;
                        gmi_desc := devName d ++ " " ++ kind_desc k |}))
  /\ (forall j, (j < 4 * length devs)%nat ->
        exists k i, (i < length devs)%nat /\ j = (kind_pos k * length devs + i)%nat).
Proof.
  pose proof (length_kind_metric_info udp devs) as Hl.
  assert (Hlen : length (ibmnet_metrics_info udp devs) = (4 * length devs + 1)%nat).
  { unfold ibmnet_metrics_info. rewrite length_app, length_fmap, !length_app, !Hl.
    cbn. lia. }
  split; [exact Hlen|]. split; [|split].
  - unfold ibmnet_metrics_info.
    rewrite lookup_app_r by (rewrite length_fmap, !length_app, !Hl; lia).
    rewrite length_fmap, !length_app, !Hl.
    replace (4 * length devs - (length devs + (length devs + (length devs + length devs))))%nat
      with 0%nat by lia.
    reflexivity.
  - intros k i d Hd. rewrite metrics_info_lookup by (eapply lookup_lt_Some; eauto).
    rewrite kind_metric_info_lookup, Hd. reflexivity.
  - intros j Hj.
    destruct (decide (j < length devs)%nat);
      [exists BYTES_RECEIVED, j; cbn; lia|].
    destruct (decide (j < 2 * length devs)%nat);
      [exists BYTES_SENT, (j - length devs)%nat; cbn; lia|].
    destruct (decide (j < 3 * length devs)%nat);
      [exists PKTS_RECEIVED, (j - 2 * length devs)%nat; cbn; lia|].
    exists PKTS_SENT, (j - 3 * length devs)%nat; cbn; lia.
Qed.

(** ** The handler *)

Lemma find_device_Some name devs j :
  find_device name devs = Some j ->
  (exists d, devs !! j = Some d /\ devName d = name)
  /\ forall j' e, (j' < j)%nat -> devs !! j' = Some e -> devName e <> name.
Proof.
  revert j. induction devs as [|d devs IH]; intros j; cbn; [discriminate|].
  destruct (String.eqb_spec name (devName d)) as [->|Hne].
  - intros [= <-]. split; [eauto|]. intros j' e Hj. lia.
  - destruct (find_device name devs) as [j0|] eqn:E; cbn; [|discriminate].
    intros [= <-]. destruct (IH j0 eq_refl) as [Hd Hfirst]. split; [exact Hd|].
    intros [|j'] e Hj; cbn.
    + intros [= <-]. congruence.
    + apply Hfirst. lia.
Qed.

Lemma find_device_None name devs :
  find_device name devs = None ->
  forall j e, devs !! j = Some e -> devName e <> name.
Proof.
  induction devs as [|d devs IH]; cbn; [intros _ j e; now rewrite lookup_nil|].
  destruct (String.eqb_spec name (devName d)) as [->|Hne]; [discriminate|].
  destruct (find_device name devs) as [j0|] eqn:E; cbn; [discriminate|].
  intros _ [|j] e; cbn; [intros [= <-]; congruence|now apply IH].
Qed.

Lemma find_device_present devs i d :
  devs !! i = Some d ->
  exists j, find_device (devName d) devs = Some j /\ (j <= i)%nat.
Proof.
  intros Hd. destruct (find_device (devName d) devs) as [j|] eqn:E.
  - exists j. split; [reflexivity|].
    destruct (find_device_Some _ _ _ E) as [_ Hfirst].
    destruct (decide (j <= i)%nat); [assumption|].
    exfalso. apply (Hfirst i d); [lia|exact Hd|reflexivity].
  - exfalso. exact (find_device_None _ _ E i d Hd eq_refl).
Qed.

Lemma find_device_NoDup devs i d :
  NoDup (devName <$> devs) -> devs !! i = Some d ->
  find_device (devName d) devs = Some i.
Proof.
  intros Hnd Hd. destruct (find_device_present devs i d Hd) as (j & Hj & Hle).
  destruct (find_device_Some _ _ _ Hj) as [(d' & Hd' & Hname) _].
  rewrite Hj. f_equal.
  apply (NoDup_lookup (devName <$> devs) j i (devName d)); [exact Hnd| |].
  - now rewrite list_lookup_fmap, Hd', <- Hname.
  - now rewrite list_lookup_fmap, Hd.
Qed.

(** The chain of [strcmp] on a kind's own name selects that kind's
    function. *)
Lemma dispatch_kind k devIndex now run st :
  (if String.eqb (kind_name k) "bytes_received"
   then val_of (netif_bytes_received_func devIndex now run st)
   else if String.eqb (kind_name k) "bytes_sent"
   then val_of (netif_bytes_sent_func devIndex now run st)
   else if String.eqb (kind_name k) "pkts_received"
   then val_of (netif_pkts_received_func devIndex now run st)
   else if String.eqb (kind_name k) "pkts_sent"
   then val_of (netif_pkts_sent_func devIndex now run st)
   else Some (val_uint32 0, st))
  = val_of (netif_func k devIndex now run st).
Proof. destruct k; reflexivity. Qed.

(** No kind's name is a text followed by an underscore and a kind's
    name. *)
Lemma no_kind_after_underscore t k p :
  p = (t ++ String "_" (kind_name k))%string ->
  String.eqb p "bytes_received" = false
  /\ String.eqb p "bytes_sent" = false
  /\ String.eqb p "pkts_received" = false
  /\ String.eqb p "pkts_sent" = false.
Proof.
  intros ->.
  assert (H : forall k', (t ++ String "_" (kind_name k))%string <> kind_name k').
  { intros k' E. pose proof (f_equal String.length E) as El.
    rewrite string_length_app in El.
    destruct t as [|c1 [|c2 [|c3 [|c4 [|c5 t]]]]];
      destruct k, k'; cbn in El; try lia; cbn in E; discriminate. }
  repeat split; apply String.eqb_neq.
  - exact (H BYTES_RECEIVED).
  - exact (H BYTES_SENT).
  - exact (H PKTS_RECEIVED).
  - exact (H PKTS_SENT).
Qed.

Lemma handler_registered udp k i d now run st :
  netif_devices st !! i = Some d ->
  (String.length (devName d) <= 240)%nat ->
  ibmnet_metric_handler (ibmnet_metrics_info udp (netif_devices st))
    (kind_pos k * length (netif_devices st) + i) now run st
  = ('(name, p) ← index_split "_"%char (devName d ++ "_" ++ kind_name k);
     match find_device name (netif_devices st) with
     | None => Some (val_uint32 0, st)
     | Some devIndex =>
         if String.eqb p "bytes_received"
         then val_of (netif_bytes_received_func devIndex now run st)
         else if String.eqb p "bytes_sent"
         then val_of (netif_bytes_sent_func devIndex now run st)
         else if String.eqb p "pkts_received"
         then val_of (netif_pkts_received_func devIndex now run st)
         else if String.eqb p "pkts_sent"
         then val_of (netif_pkts_sent_func devIndex now run st)
         else Some (val_uint32 0, st)
     end).
Proof.
  intros Hd Hlen. unfold ibmnet_metric_handler.
  rewrite metrics_info_lookup by (eapply lookup_lt_Some; eauto).
  rewrite kind_metric_info_lookup, Hd.
  cbn [fmap option_fmap option_map mbind option_bind gmi_name].
  rewrite (proj2 (Z.leb_gt _ _)); [reflexivity|].
  rewrite !string_length_app. destruct k; cbn; lia.
Qed.

(** X2. For a device whose name has no underscore, the handler called with
    the index of the device's metric of kind [k] runs the metric function
    of kind [k] for the first device of that name: the one searched for
    when names are distinct, an earlier one otherwise. *)
Theorem X2_handler_first_device_of_name udp k i d now run st :
  netif_devices st !! i = Some d ->
  has_char "_" (devName d) = false ->
  (String.length (devName d) <= 240)%nat ->
  exists j d',
    find_device (devName d) (netif_devices st) = Some j
    /\ (j <= i)%nat
    /\ netif_devices st !! j = Some d'
    /\ devName d' = devName d
    /\ (forall j' e, (j' < j)%nat -> netif_devices st !! j' = Some e ->
                     devName e <> devName d)
    /\ ibmnet_metric_handler (ibmnet_metrics_info udp (netif_devices st))
         (kind_pos k * length (netif_devices st) + i) now run st
       = val_of (netif_func k j now run st).
Proof.
  intros Hd Hu Hlen.
  destruct (find_device_present _ _ _ Hd) as (j & Hj & Hle).
  destruct (find_device_Some _ _ _ Hj) as [(d' & Hd' & Hname) Hfirst].
  exists j, d'. repeat (split; [assumption|]).
  rewrite (handler_registered udp k i d now run st Hd Hlen).
  change (devName d ++ "_" ++ kind_name k)%string
    with (devName d ++ String "_" (kind_name k))%string.
  rewrite (index_split_app _ _ _ Hu).
  cbn [mbind option_bind]. rewrite Hj. apply dispatch_kind.
Qed.

(** X3. When the device names are distinct and have no underscore, the
    handler called with the index at which [ibmnet_metric_init] registered
    the metric of kind [k] of device [i] returns what the metric function
    of kind [k] returns for device [i]. *)
Theorem X3_handler_round_trip udp k i d now run st :
  netif_devices st !! i = Some d ->
  NoDup (devName <$> netif_devices st) ->
  has_char "_" (devName d) = false ->
  (String.length (devName d) <= 240)%nat ->
  ibmnet_metric_handler (ibmnet_metrics_info udp (netif_devices st))
    (kind_pos k * length (netif_devices st) + i) now run st
  = val_of (netif_func k i now run st).
Proof.
  intros Hd Hnd Hu Hlen.
  rewrite (handler_registered udp k i d now run st Hd Hlen).
  change (devName d ++ "_" ++ kind_name k)%string
    with (devName d ++ String "_" (kind_name k))%string.
  rewrite (index_split_app _ _ _ Hu).
  cbn [mbind option_bind]. rewrite (find_device_NoDup _ _ _ Hnd Hd).
  apply dispatch_kind.
Qed.

(** X4. For a device whose name contains an underscore, the handler called
    with the index of any of the device's four metrics returns the
    fallback [val.uint32 = 0] and leaves the state as it is: the name is
    cut at its first underscore, and what follows is no kind's name. *)
Theorem X4_handler_underscore_in_name udp k i d now run st :
  netif_devices st !! i = Some d ->
  has_char "_" (devName d) = true ->
  (String.length (devName d) <= 240)%nat ->
  ibmnet_metric_handler (ibmnet_metrics_info udp (netif_devices st))
    (kind_pos k * length (netif_devices st) + i) now run st
  = Some (val_uint32 0, st).
Proof.
  intros Hd Hu Hlen.
  rewrite (handler_registered udp k i d now run st Hd Hlen).
  destruct (has_char_split _ _ Hu) as (h & t & -> & Hh).
  rewrite string_app_assoc. cbn [append].
  rewrite (index_split_app _ _ _ Hh). cbn [mbind option_bind].
  destruct (find_device h (netif_devices st)) as [j|]; [|reflexivity].
  destruct (no_kind_after_underscore t k _ eq_refl) as (-> & -> & -> & ->).
  reflexivity.
Qed.

Lemma X2_witness :
  ibmnet_metric_handler (ibmnet_metrics_info 28 (netif_devices Demo2.three))
    4 (of_Z 103) SIGALRM_fired Demo2.three
  = val_of (netif_func BYTES_SENT 0 (of_Z 103) SIGALRM_fired Demo2.three).
Proof.
  destruct (X2_handler_first_device_of_name 28 BYTES_SENT 1 (Demo2.dev "ent0")
              (of_Z 103) SIGALRM_fired Demo2.three eq_refl eq_refl
              ltac:(cbn; lia))
    as (j & d' & Hj & _ & _ & _ & _ & H).
  vm_compute in Hj. injection Hj as <-. exact H.
Defined.

Lemma X3_witness :
  ibmnet_metric_handler (ibmnet_metrics_info 28 (netif_devices Demo2.two))
    5 (of_Z 103) SIGALRM_fired Demo2.two
  = val_of (netif_func PKTS_RECEIVED 1 (of_Z 103) SIGALRM_fired Demo2.two).
Proof.
  refine (X3_handler_round_trip 28 PKTS_RECEIVED 1 (Demo2.dev "ent1")
            (of_Z 103) SIGALRM_fired Demo2.two eq_refl _ eq_refl _).
  - cbn. constructor.
    + intros H. apply list_elem_of_singleton in H. discriminate.
    + constructor; [apply not_elem_of_nil|constructor].
  - cbn. lia.
Defined.

Lemma X4_witness :
  ibmnet_metric_handler (ibmnet_metrics_info 28 (netif_devices Demo2.three))
    2 (of_Z 200) Demo2.good_run Demo2.three
  = Some (val_uint32 0, Demo2.three).
Proof.
  refine (X4_handler_underscore_in_name 28 BYTES_RECEIVED 2 (Demo2.dev "en_t2")
            (of_Z 200) Demo2.good_run Demo2.three eq_refl eq_refl _).
  cbn. lia.
Defined.

(** ** Device detection *)

Lemma read_device_names_spec max_g heap count : forall i buf lines devs,
  read_device_names max_g count i buf lines heap = Some devs ->
  length devs = count
  /\ devs = imap (fun j name => new_device heap (i + j) name) (devName <$> devs)
  /\ Forall (fun d => (String.length (devName d) < max_g)%nat) devs
  /\ (forall j l d, lines !! j = Some l -> devs !! j = Some d ->
                    devName d = truncate_last l)
  /\ (forall d, lines = [] -> devs !! 0%nat = Some d ->
                devName d = truncate_last buf)
  /\ (forall j d d', (length lines <= S j)%nat ->
                     devs !! j = Some d -> devs !! S j = Some d' ->
                     devName d' = truncate_last (devName d)).
Proof.
  induction count as [|count IH]; intros i buf lines devs; cbn.
  - intros [= <-]. repeat split; try constructor; intros; discriminate.
  - set (b := truncate_last match lines with l :: _ => l | [] => buf end).
    destruct (Nat.leb_spec max_g (String.length b)) as [|Hlen]; [discriminate|].
    destruct (read_device_names max_g count (S i) b (tail lines) heap)
      as [rest|] eqn:E; cbn; [|discriminate].
    intros [= <-].
    destruct (IH _ _ _ _ E) as (Hl & Himap & Hall & Hline & Hnil & Hstale).
    split; [cbn; now rewrite Hl|]. split; [|split; [|split; [|split]]].
    + cbn [fmap list_fmap devName]. rewrite imap_cons. f_equal.
      * unfold new_device. now rewrite Nat.add_0_r.
      * rewrite Himap at 1. apply imap_ext. intros j x _. cbn.
        now replace (i + S j)%nat with (S i + j)%nat by lia.
    + constructor; [exact Hlen|exact Hall].
    + intros [|j] l d; cbn.
      * intros Hl0 [= <-]. cbn. unfold b. destruct lines; [discriminate|].
        cbn in Hl0. now injection Hl0 as ->.
      * intros Hlj Hd. apply (Hline j l d); [|exact Hd].
        destruct lines; [discriminate|exact Hlj].
    + intros d -> [= <-]. reflexivity.
    + intros [|j] d d' Hle; cbn.
      * intros [= <-] Hd'. cbn. apply (Hnil d'); [|exact Hd'].
        destruct lines as [|l [|l' r]]; cbn in *; try reflexivity; lia.
      * intros Hd Hd'. apply (Hstale j d d'); try assumption.
        destruct lines; cbn in *; lia.
Qed.

Lemma read_device_names_listed max_g heap : forall names i buf more,
  Forall (fun n => (String.length n < max_g)%nat) names ->
  read_device_names max_g (length names) i buf
    (((fun n => n ++ newline)%string <$> names) ++ more) heap
  = Some (imap (fun j name => new_device heap (i + j) name) names).
Proof.
  induction names as [|n names IH]; intros i buf more Hall; [reflexivity|].
  inversion Hall as [|? ? Hn Hrest]; subst.
  cbn [length fmap list_fmap app read_device_names tail].
  unfold newline. rewrite truncate_last_app.
  destruct (Nat.leb_spec max_g (String.length n)) as [|_]; [lia|].
  change (list_fmap _ _ ?f names) with (f <$> names).
  fold newline. rewrite (IH (S i) n more Hrest). cbn [mbind option_bind].
  rewrite imap_cons. f_equal. f_equal.
  - unfold new_device. now rewrite Nat.add_0_r.
  - apply imap_ext. intros j x _. cbn.
    now replace (i + S j)%nat with (S i + j)%nat by lia.
Qed.

Lemma detect_is_imap names heap :
  detect_and_verify_netif_devices names heap
  = imap (fun j name => new_device heap (0 + j) name) names.
Proof. reflexivity. Qed.

(** X5. When the counting pipeline prints the number of names that the
    listing pipeline prints, one per line, [detect_and_verify_netif_devices]
    returns that number and fills [netif_devices] with one enabled record
    per name, in order, with threshold 5.0: the device table from which
    [ibmnet_metric_init] starts. *)
Theorem X5_detect_listed_devices max_g buf rest names more heap :
  names <> [] ->
  atoi buf = Some (Z.of_nat (length names)) ->
  Forall (fun n => (String.length n < max_g)%nat) names ->
  detect_and_verify_popen max_g (popen_stream (buf :: rest))
    (popen_stream (((fun n => n ++ newline)%string <$> names) ++ more)) heap
  = Some (Z.of_nat (length names), detect_and_verify_netif_devices names heap).
Proof.
  intros Hne Hcount Hall. unfold detect_and_verify_popen. rewrite Hcount.
  cbn [mbind option_bind].
  assert (Hpos : 0 < Z.of_nat (length names)) by (destruct names; [congruence|cbn; lia]).
  destruct (Z.eqb_spec (Z.of_nat (length names)) 0) as [?|_]; [lia|].
  destruct (Z.ltb_spec (Z.of_nat (length names)) 0) as [?|_]; [lia|].
  rewrite Nat2Z.id, read_device_names_listed by exact Hall.
  cbn [mbind option_bind]. now rewrite detect_is_imap.
Qed.


(** X7. The result of [fgets] in the detection loop is not tested: a
    device within the listing is named by its line without the line's last
    character, and every device past the end of the listing gets the name
    of the device before it without its last character (the first one that
    of the count's text when the listing is empty). *)
Theorem X7_detect_short_listing max_g buf rest lines heap count devs :
  detect_and_verify_popen max_g (popen_stream (buf :: rest)) (popen_stream lines) heap
  = Some (count, devs) ->
  (forall j l d, lines !! j = Some l -> devs !! j = Some d ->
                 devName d = truncate_last l)
  /\ (forall d, lines = [] -> devs !! 0%nat = Some d ->
                devName d = truncate_last buf)
  /\ (forall j d d', (length lines <= S j)%nat ->
                     devs !! j = Some d -> devs !! S j = Some d' ->
                     devName d' = truncate_last (devName d)).
Proof.
  unfold detect_and_verify_popen.
  destruct (atoi buf) as [c|]; cbn [mbind option_bind]; [|discriminate].
  destruct (Z.eqb_spec c 0) as [_|Hc].
  { intros [= <- <-]. repeat split; intros; rewrite lookup_nil in *; discriminate. }
  destruct (Z.ltb_spec c 0) as [|Hpos]; [discriminate|].
  destruct (read_device_names max_g (Z.to_nat c) 0 buf lines heap) as [ds|] eqn:E;
    cbn [mbind option_bind]; [|discriminate].
  intros [= <- <-].
  destruct (read_device_names_spec _ _ _ _ _ _ _ E) as (_ & _ & _ & H1 & H2 & H3).
  auto.
Qed.

Lemma X5_witness :
  detect_and_verify_popen 64 (popen_stream ["       2" ++ newline]%string)
    (popen_stream ["ent0" ++ newline; "ent1" ++ newline]%string) Demo2.no_heap
  = Some (2, detect_and_verify_netif_devices ["ent0"; "ent1"]%string Demo2.no_heap).
Proof.
  refine (X5_detect_listed_devices 64 ("       2" ++ newline) []
            ["ent0"; "ent1"]%string [] Demo2.no_heap _ _ _).
  - discriminate.
  - reflexivity.
  - repeat constructor.
Defined.


Lemma X7_witness :
  (forall j l d,
      ["ent0" ++ newline]%string !! j = Some l ->
      [new_device Demo2.no_heap 0 "ent0"; new_device Demo2.no_heap 1 "ent"] !! j
      = Some d ->
      devName d = truncate_last l)
  /\ (forall d,
        ["ent0" ++ newline]%string = [] ->
        [new_device Demo2.no_heap 0 "ent0"; new_device Demo2.no_heap 1 "ent"]
        !! 0%nat = Some d ->
        devName d = truncate_last ("2" ++ newline))
  /\ (forall j d d',
        (length ["ent0" ++ newline]%string <= S j)%nat ->
        [new_device Demo2.no_heap 0 "ent0"; new_device Demo2.no_heap 1 "ent"] !! j
        = Some d ->
        [new_device Demo2.no_heap 0 "ent0"; new_device Demo2.no_heap 1 "ent"]
        !! S j = Some d' ->
        devName d' = truncate_last (devName d)).
Proof.
  refine (X7_detect_short_listing 64 ("2" ++ newline) []
            ["ent0" ++ newline]%string Demo2.no_heap 2 _ _).
  reflexivity.
Defined.

(** ** Reading the counters back from decimal text *)

Lemma digit_cases d : 0 <= d <= 9 ->
  d = 0 \/ d = 1 \/ d = 2 \/ d = 3 \/ d = 4 \/ d = 5 \/ d = 6 \/ d = 7 \/ d = 8 \/ d = 9.
Proof. lia. Qed.

Lemma digit_val_digit_char d : 0 <= d <= 9 -> digit_val (digit_char d) = Some d.
Proof.
  intros H. destruct (digit_cases d H) as [->|[->|[->|[->|[->|[->|[->|[->|[->| ->]]]]]]]]];
    reflexivity.
Qed.

Lemma read_digits_app ds : forall rest acc,
  is_digits ds ->
  read_digits (digits_string ds ++ rest) acc
  = read_digits rest (fold_left (fun a d => 10 * a + d) ds acc).
Proof.
  induction ds as [|d ds IH]; intros rest acc Hds; [reflexivity|].
  inversion Hds as [|? ? Hd Hrest]; subst. cbn [digits_string append read_digits].
  rewrite (digit_val_digit_char d Hd). cbn [fold_left]. now apply IH.
Qed.

Lemma string_app_nil (s : string) : (s ++ "")%string = s.
Proof. induction s as [|a s IH]; cbn; [reflexivity|now rewrite IH]. Qed.

Lemma strtoll_digits ds :
  is_digits ds -> strtoll (digits_string ds) = Z.min LLONG_MAX (digits_value ds).
Proof.
  intros Hds. destruct ds as [|d ds]; [reflexivity|].
  inversion Hds as [|? ? Hd Hrest]; subst.
  assert (Hr : read_digits (digits_string ds) (10 * 0 + d)
               = digits_value (d :: ds)).
  { rewrite <- (string_app_nil (digits_string ds)).
    rewrite read_digits_app by exact Hrest. reflexivity. }
  rewrite <- Hr.
  destruct (digit_cases d Hd) as [->|[->|[->|[->|[->|[->|[->|[->|[->| ->]]]]]]]]];
    reflexivity.
Qed.

Lemma has_char_space_digits ds :
  is_digits ds -> has_char " " (digits_string ds) = false.
Proof.
  induction 1 as [|d ds Hd _ IH]; [reflexivity|]. cbn [digits_string has_char].
  rewrite IH.
  destruct (digit_cases d Hd) as [->|[->|[->|[->|[->|[->|[->|[->|[->| ->]]]]]]]]];
    reflexivity.
Qed.

Lemma parse_line_fields h t c :
  has_char " " h = false ->
  parse_line (h ++ " " ++ t ++ String c EmptyString)
  = Some (strtoll h, strtoll t).
Proof.
  intros Hh. unfold parse_line.
  replace (h ++ " " ++ t ++ String c EmptyString)%string
    with ((h ++ String " " t) ++ String c EmptyString)%string
    by (rewrite string_app_assoc; reflexivity).
  rewrite truncate_last_app, (index_split_app _ _ _ Hh). reflexivity.
Qed.

(** X8. From two lines of decimal numbers, [sent received], [read_device]
    reads the packet counters off the first line and the byte counters off
    the second, each clamped to LLONG_MAX; the last character of each line
    is dropped whatever it is, and lines after the second are not read. *)
Theorem X8_counters_read_back ps pr bs br c1 c2 more :
  is_digits ps -> is_digits pr -> is_digits bs -> is_digits br ->
  read_counters
    (popen_stream
       ((digits_string ps ++ " " ++ digits_string pr ++ String c1 EmptyString)
        :: (digits_string bs ++ " " ++ digits_string br ++ String c2 EmptyString)
        :: more)%string)
  = Some {| c_bytes_received := Z.min LLONG_MAX (digits_value br);
            c_bytes_sent := Z.min LLONG_MAX (digits_value bs);
            c_pkts_received := Z.min LLONG_MAX (digits_value pr);
            c_pkts_sent := Z.min LLONG_MAX (digits_value ps) |}.
Proof.
  intros Hps Hpr Hbs Hbr. unfold read_counters.
  rewrite !parse_line_fields by now apply has_char_space_digits.
  cbn [mbind option_bind]. now rewrite !strtoll_digits.
Qed.

Lemma strtoll_not_a_number s : not_a_number s = true -> strtoll s = 0.
Proof.
  destruct s as [|c r]; [reflexivity|]. unfold not_a_number, strtoll.
  destruct c as [[] [] [] [] [] [] [] []]; cbn; try discriminate; reflexivity.
Qed.

(** X9. Fields that are not numbers are not reported as unavailable:
    [strtoll] reads them as 0, so the four counters are 0, not -1, and
    [read_device] rewrites all four rate states of the device with the raw
    counter 0. *)
Theorem X9_text_read_as_zero h1 t1 c1 h2 t2 c2 more i delta_t now st :
  not_a_number h1 = true -> not_a_number t1 = true ->
  not_a_number h2 = true -> not_a_number t2 = true ->
  has_char " " h1 = false -> has_char " " h2 = false ->
  wf_state st -> (i < length (netif_devices st))%nat ->
  let f := popen_stream ((h1 ++ " " ++ t1 ++ String c1 EmptyString)
                         :: (h2 ++ " " ++ t2 ++ String c2 EmptyString)
                         :: more)%string in
  read_counters f
  = Some {| c_bytes_received := 0; c_bytes_sent := 0;
            c_pkts_received := 0; c_pkts_sent := 0 |}
  /\ exists st',
      read_device i delta_t now (entstat_done f) st = Some st'
      /\ forall k, table k st' !! i = rate_update 0 delta_t <$> table k st !! i.
Proof.
  intros Hh1 Ht1 Hh2 Ht2 Hs1 Hs2 Hwf Hi f.
  assert (Hc : read_counters f
               = Some {| c_bytes_received := 0; c_bytes_sent := 0;
                         c_pkts_received := 0; c_pkts_sent := 0 |}).
  { unfold f, read_counters. rewrite !parse_line_fields by assumption.
    cbn [mbind option_bind]. now rewrite !strtoll_not_a_number. }
  split; [exact Hc|].
  eexists. split; [apply read_device_done; eassumption|].
  intros k. rewrite table_sampled_state, sampled_table_lookup.
  now destruct k.
Qed.

Lemma X8_witness :
  read_counters
    (popen_stream ["12 34" ++ newline; "5600 780" ++ "0"]%string)
  = Some {| c_bytes_received := 780; c_bytes_sent := 5600;
            c_pkts_received := 34; c_pkts_sent := 12 |}.
Proof.
  refine (X8_counters_read_back [1; 2] [3; 4] [5; 6; 0; 0] [7; 8; 0]
            "010"%char "0"%char [] _ _ _ _);
    repeat constructor; lia.
Defined.

Lemma X9_witness :
  read_counters
    (popen_stream ["entstat: failed" ++ newline; "Device is_busy" ++ newline]%string)
  = Some {| c_bytes_received := 0; c_bytes_sent := 0;
            c_pkts_received := 0; c_pkts_sent := 0 |}
  /\ exists st',
      read_device 0 (of_Z 10) (of_Z 110)
        (entstat_done
           (popen_stream
              ["entstat: failed" ++ newline; "Device is_busy" ++ newline]%string))
        Demo.after_init = Some st'
      /\ forall k,
          table k st' !! 0%nat
          = rate_update 0 (of_Z 10) <$> table k Demo.after_init !! 0%nat.
Proof.
  refine (X9_text_read_as_zero "entstat:" "failed"%string "010"%char
            "Device" "is_busy"%string "010"%char [] 0 (of_Z 10) (of_Z 110)
            Demo.after_init _ _ _ _ _ _ wf_after_init _);
    try reflexivity.
  cbn. lia.
Defined.

(** ** Two samples in a row *)

Lemma set_last_read_fields now d :
  enabled (set_last_read now d) = enabled d
  /\ threshold (set_last_read now d) = threshold d
  /\ last_read (set_last_read now d) = now
  /\ devName (set_last_read now d) = devName d.
Proof. repeat split. Qed.

(** A completed resample through a metric function, written out. *)
Lemma netif_func_sampled k i now f c st d :
  wf_state st ->
  netif_devices st !! i = Some d ->
  enabled d = true ->
  gtb (time_diff d now) (threshold d) = true ->
  read_counters f = Some c ->
  exists p',
    table k (sampled_state i (time_diff d now) now c st) !! i = Some p'
    /\ netif_func k i now (entstat_done f) st
       = Some (curr_value p', sampled_state i (time_diff d now) now c st)
    /\ (forall p, table k st !! i = Some p ->
                  p' = (if counter k c =? -1 then p
                        else rate_update (counter k c) (time_diff d now) p))
    /\ wf_state (sampled_state i (time_diff d now) now c st)
    /\ netif_devices (sampled_state i (time_diff d now) now c st) !! i
       = Some (set_last_read now d).
Proof.
  intros Hwf Hd He Ht Hc.
  pose proof (lookup_lt_Some _ _ _ Hd) as Hi.
  pose proof (read_device_done i (time_diff d now) now f c st Hwf Hi Hc) as Hr.
  destruct (read_device_wf _ _ _ _ _ _ Hwf Hr) as [Hwf' Hl'].
  assert (Hp : is_Some (table k st !! i))
    by (apply lookup_lt_is_Some_2; rewrite (Hwf k); exact Hi).
  destruct Hp as [p Hp].
  exists (if counter k c =? -1 then p else rate_update (counter k c) (time_diff d now) p).
  assert (Hp' : table k (sampled_state i (time_diff d now) now c st) !! i
                = Some (if counter k c =? -1 then p
                        else rate_update (counter k c) (time_diff d now) p)).
  { rewrite table_sampled_state, sampled_table_lookup, Hp.
    now destruct (counter k c =? -1). }
  split; [exact Hp'|]. split; [|split; [|split; [exact Hwf'|]]].
  - rewrite (netif_func_resample k i now _ st d Hd He Ht), Hr.
    cbn [mbind option_bind]. rewrite Hp'. reflexivity.
  - intros q Hq. rewrite Hp in Hq. now injection Hq as <-.
  - cbn. now rewrite list_lookup_alter_eq, Hd.
Qed.

Lemma two_samples k i now1 now2 f1 f2 c1 c2 st d :
  wf_state st ->
  netif_devices st !! i = Some d ->
  enabled d = true ->
  gtb (time_diff d now1) (threshold d) = true ->
  gtb (sub now2 now1) (threshold d) = true ->
  read_counters f1 = Some c1 ->
  read_counters f2 = Some c2 ->
  counter k c1 <> -1 ->
  counter k c2 <> -1 ->
  0 <= counter k c1 <= counter k c2 ->
  exists v1 st1 st2,
    netif_func k i now1 (entstat_done f1) st = Some (v1, st1)
    /\ netif_func k i now2 (entstat_done f2) st1
       = Some (div (of_Z (counter k c2 - counter k c1)) (sub now2 now1), st2).
Proof.
  intros Hwf Hd He Ht1 Ht2 Hc1 Hc2 Hr1 Hr2 Hmono.
  destruct (netif_func_sampled k i now1 f1 c1 st d Hwf Hd He Ht1 Hc1)
    as (p1 & Hp1 & Hf1 & Hval1 & Hwf1 & Hd1).
  destruct (set_last_read_fields now1 d) as (He1 & Hthr1 & Hlr1 & _).
  assert (Htd : time_diff (set_last_read now1 d) now2 = sub now2 now1) by reflexivity.
  destruct (netif_func_sampled k i now2 f2 c2 _ (set_last_read now1 d) Hwf1 Hd1
              ltac:(rewrite He1; exact He) ltac:(rewrite Htd, Hthr1; exact Ht2) Hc2)
    as (p2 & Hp2 & Hf2 & Hval2 & _ & _).
  do 3 eexists. split; [exact Hf1|]. rewrite Hf2. f_equal. f_equal.
  rewrite (Hval2 p1 Hp1), (raw_available _ Hr2), Htd.
  assert (Hlast : last_total_value p1 = counter k c1).
  { assert (Hp : is_Some (table k st !! i)).
    { apply lookup_lt_is_Some_2. rewrite (Hwf k). eapply lookup_lt_Some; eauto. }
    destruct Hp as [p Hp]. rewrite (Hval1 p Hp), (raw_available _ Hr1). reflexivity. }
  unfold rate_update. cbn [curr_value]. rewrite Hlast.
  pose proof (read_counters_in_ll f2 c2 k Hc2) as Hin.
  rewrite sub_ll_exact by (unfold in_ll, LLONG_MIN, LLONG_MAX in *; lia).
  destruct (Z.ltb_spec (counter k c2 - counter k c1) 0) as [?|_]; [lia|reflexivity].
Qed.

(** X10. Two resamples in a row of one device, both reading available
    counters of a kind that are not negative and do not decrease: the second
    call returns [(raw2 - raw1) / (now2 - now1)], the difference of the two
    counters over the time between the two samples, whatever the rate state
    held before the first. *)
Theorem X10_rate_between_two_samples k i now1 now2 f1 f2 c1 c2 st d :
  wf_state st ->
  netif_devices st !! i = Some d ->
  enabled d = true ->
  gtb (time_diff d now1) (threshold d) = true ->
  gtb (sub now2 now1) (threshold d) = true ->
  read_counters f1 = Some c1 ->
  read_counters f2 = Some c2 ->
  counter k c1 <> -1 ->
  counter k c2 <> -1 ->
  0 <= counter k c1 <= counter k c2 ->
  exists v1 st1 st2,
    netif_func k i now1 (entstat_done f1) st = Some (v1, st1)
    /\ netif_func k i now2 (entstat_done f2) st1
       = Some (div (of_Z (counter k c2 - counter k c1)) (sub now2 now1), st2).
Proof. apply two_samples. Qed.

Lemma div_zero_positive y : gtb y zero = true -> div zero y = zero.
Proof.
  intros Hy. destruct (positive_cases y Hy) as [-> | (m & e & ->)]; reflexivity.
Qed.

(** X11. When a counter that is not negative reads the same at two
    resamples in a row, the second call returns exactly 0.0, provided the
    device's threshold is not negative (it is 5.0). *)
Theorem X11_idle_counter_rate_zero k i now1 now2 f1 f2 c1 c2 st d :
  wf_state st ->
  netif_devices st !! i = Some d ->
  enabled d = true ->
  geb (threshold d) zero = true ->
  gtb (time_diff d now1) (threshold d) = true ->
  gtb (sub now2 now1) (threshold d) = true ->
  read_counters f1 = Some c1 ->
  read_counters f2 = Some c2 ->
  counter k c1 <> -1 ->
  0 <= counter k c1 ->
  counter k c2 = counter k c1 ->
  exists v1 st1 st2,
    netif_func k i now1 (entstat_done f1) st = Some (v1, st1)
    /\ netif_func k i now2 (entstat_done f2) st1 = Some (zero, st2).
Proof.
  intros Hwf Hd He Hthr Ht1 Ht2 Hc1 Hc2 Hr1 H0 Heq.
  destruct (two_samples k i now1 now2 f1 f2 c1 c2 st d Hwf Hd He Ht1 Ht2 Hc1 Hc2 Hr1
              ltac:(congruence) ltac:(lia))
    as (v1 & st1 & st2 & Hf1 & Hf2).
  exists v1, st1, st2. split; [exact Hf1|]. rewrite Hf2, Heq, Z.sub_diag.
  change (of_Z 0) with zero. rewrite div_zero_positive; [reflexivity|].
  revert Hthr Ht2. unfold geb, gtb, leb, ltb, SFleb, SFltb.
  destruct (threshold d) as [s|s| |s m e], (sub now2 now1) as [s'|s'| |s' m' e'];
    try destruct s; try destruct s'; cbn; try congruence.
Qed.

(** ** The device table is fixed at start-up *)

Lemma fmap_alter_same {A B} (f : A -> B) (g : A -> A) i (l : list A) :
  (forall x, f (g x) = f x) -> f <$> alter g i l = f <$> l.
Proof.
  intros H. rewrite (list_fmap_alter f g id) by (apply Forall_forall; intros; apply H).
  apply list_alter_id. reflexivity.
Qed.

Lemma read_device_registry i delta_t now run st st' :
  read_device i delta_t now run st = Some st' ->
  devName <$> netif_devices st' = devName <$> netif_devices st
  /\ threshold <$> netif_devices st' = threshold <$> netif_devices st.
Proof.
  intros Hr. destruct run as [|f].
  - apply read_device_alarm_inv in Hr as [-> _]. cbn.
    split; now apply fmap_alter_same.
  - apply read_device_done_inv in Hr as (c & _ & -> & _). cbn.
    split; now apply fmap_alter_same.
Qed.

Lemma do_calls_registry cs : forall st vs st',
  do_calls cs st = Some (vs, st') ->
  devName <$> netif_devices st' = devName <$> netif_devices st
  /\ threshold <$> netif_devices st' = threshold <$> netif_devices st.
Proof.
  induction cs as [|c cs IH]; intros st vs st' Hrun; cbn in Hrun.
  - now injection Hrun as _ <-.
  - destruct (do_call c st) as [[v st1]|] eqn:Hc; cbn in Hrun; [|discriminate].
    destruct (do_calls cs st1) as [[vs1 st2]|] eqn:Hcs; cbn in Hrun; [|discriminate].
    injection Hrun as _ <-. destruct (IH _ _ _ Hcs) as [Hn Ht].
    rewrite Hn, Ht.
    destruct (netif_func_inv _ _ _ _ _ _ _ Hc)
      as [d0 _ _ _ -> | d0 p _ _ _ _ _ -> | d0 p _ _ _ Hr _ _]; auto.
    eapply read_device_registry; eauto.
Qed.

Lemma do_calls_wf cs : forall st vs st',
  wf_state st -> do_calls cs st = Some (vs, st') ->
  wf_state st' /\ length (netif_devices st') = length (netif_devices st).
Proof.
  induction cs as [|c cs IH]; intros st vs st' Hwf Hrun; cbn in Hrun.
  - injection Hrun as _ <-. auto.
  - destruct (do_call c st) as [[v st1]|] eqn:Hc; cbn in Hrun; [|discriminate].
    destruct (do_calls cs st1) as [[vs1 st2]|] eqn:Hcs; cbn in Hrun; [|discriminate].
    injection Hrun as _ <-. destruct (do_call_wf _ _ _ _ Hwf Hc) as [Hwf1 Hl1].
    destruct (IH _ _ _ Hwf1 Hcs) as [Hwf2 Hl2]. split; [exact Hwf2|congruence].
Qed.

Lemma metrics_info_names udp a b :
  devName <$> a = devName <$> b ->
  ibmnet_metrics_info udp a = ibmnet_metrics_info udp b.
Proof.
  intros H.
  assert (Hk : forall k, kind_metric_info udp a k = kind_metric_info udp b k).
  { intros k. unfold kind_metric_info, init_metric_info.
    change (map ?f a) with (f <$> a). change (map ?f b) with (f <$> b).
    set (g := fun name : string =>
                {| gmi_name := name ++ "_" ++ kind_name k; gmi_tmax := 60;
                   gmi_type := GANGLIA_VALUE_DOUBLE; gmi_units := kind_units k;
                   gmi_slope := "both"; gmi_fmt := "%.1f";
                   gmi_msg_size := udp + 16;
                   gmi_desc := name ++ " " ++ kind_desc k |}).
    transitivity (g <$> (devName <$> a)).
    - rewrite <- list_fmap_compose. reflexivity.
    - rewrite H, <- list_fmap_compose. reflexivity. }
  unfold ibmnet_metrics_info. now rewrite !Hk.
Qed.

(** X12. The device table is fixed at start-up: after
    [ibmnet_metric_init] and any calls of the metric functions, the device
    names are those detected, in order, every threshold is 5.0, each of the
    four arrays still has one element per device, and the metric
    definitions built from the names are those of start-up. *)
Theorem X12_registry_fixed udp lsdev heap now0 runs st0 cs vs st :
  ibmnet_metric_init lsdev heap now0 runs = Some st0 ->
  do_calls cs st0 = Some (vs, st) ->
  devName <$> netif_devices st = lsdev
  /\ threshold <$> netif_devices st = replicate (length lsdev) MIN_THRESHOLD
  /\ (forall k, length (table k st) = length lsdev)
  /\ ibmnet_metrics_info udp (netif_devices st)
     = ibmnet_metrics_info udp (detect_and_verify_netif_devices lsdev heap).
Proof.
  intros Hinit Hrun.
  destruct (ibmnet_metric_init_lookup _ _ _ _ _ Hinit) as (Hwf0 & _ & Hd0).
  destruct (do_calls_registry _ _ _ _ Hrun) as [Hn Ht].
  destruct (do_calls_wf _ _ _ _ Hwf0 Hrun) as [Hwf Hl].
  assert (Hlen0 : length (netif_devices st0) = length lsdev).
  { unfold ibmnet_metric_init in Hinit.
    match type of Hinit with init_loop _ _ _ _ ?s = _ =>
      assert (Hs : wf_state s)
        by (intros k; destruct k; cbn; unfold init_metric;
            now rewrite length_replicate);
      destruct (init_loop_wf _ _ _ _ _ _ Hs Hinit) as [_ Hl0]
    end.
    rewrite Hl0. cbn. apply length_detect. }
  assert (Hnames0 : devName <$> netif_devices st0 = lsdev).
  { apply list_eq. intros i. rewrite list_lookup_fmap.
    destruct (lsdev !! i) as [name|] eqn:E.
    - rewrite (Hd0 i name E). cbn. now destruct (runs i).
    - apply lookup_ge_None in E.
      rewrite (proj2 (lookup_ge_None (netif_devices st0) i)) by lia. reflexivity. }
  assert (Hthr0 : threshold <$> netif_devices st0
                  = replicate (length lsdev) MIN_THRESHOLD).
  { apply list_eq. intros i. rewrite list_lookup_fmap.
    destruct (lsdev !! i) as [name|] eqn:E.
    - rewrite (Hd0 i name E). cbn.
      rewrite lookup_replicate_2 by (eapply lookup_lt_Some; eauto).
      now destruct (runs i).
    - apply lookup_ge_None in E.
      rewrite (proj2 (lookup_ge_None (netif_devices st0) i)) by lia.
      cbn. symmetry. apply lookup_replicate_None. lia. }
  split; [congruence|]. split; [congruence|]. split.
  - intros k. rewrite (Hwf k). congruence.
  - apply metrics_info_names. rewrite Hn, Hnames0.
    unfold detect_and_verify_netif_devices. apply list_eq. intros i.
    rewrite list_lookup_fmap, list_lookup_imap. now destruct (lsdev !! i).
Qed.

(** ** Start-up samples every device once *)

Lemma init_loop_calls todo : forall i0 now runs s s',
  init_loop todo i0 now runs s = Some s' ->
  entstat_calls s' = rev (seq i0 todo) ++ entstat_calls s.
Proof.
  induction todo as [|todo IH]; intros i0 now runs s s' Hl; cbn in Hl.
  - now injection Hl as <-.
  - destruct (init_device i0 now (runs i0) s) as [s1|] eqn:Hi; cbn in Hl; [|discriminate].
    rewrite (IH _ _ _ _ _ Hl). unfold init_device in Hi.
    destruct (read_device i0 one now (runs i0) s) as [s2|] eqn:Hr; cbn in Hi; [|discriminate].
    apply zero_curr_values_inv in Hi as (_ & _ & Hlog).
    destruct (read_device_frame _ _ _ _ _ _ Hr) as (_ & _ & Hlog2).
    rewrite Hlog, Hlog2. cbn [seq rev]. now rewrite <- app_assoc.
Qed.

(** X13. [ibmnet_metric_init] enters [read_device] exactly once for each
    detected device, in index order, whatever the runs do (a device that
    times out does not stop the loop). *)
Theorem X13_init_samples_each_device_once lsdev heap now0 runs st0 :
  ibmnet_metric_init lsdev heap now0 runs = Some st0 ->
  entstat_calls st0 = rev (seq 0 (length lsdev)).
Proof.
  intros Hinit. unfold ibmnet_metric_init in Hinit.
  rewrite (init_loop_calls _ _ _ _ _ _ Hinit), length_detect. cbn.
  apply app_nil_r.
Qed.

(** X14. A device whose entstat run times out during start-up is left
    disabled with all four rate states zero, and every later call for it
    returns -1.0 without sampling; the devices whose runs complete are
    enabled with [last_read] set to the time of start-up. *)
Theorem X14_timeout_at_startup lsdev heap now0 runs st0 i name :
  ibmnet_metric_init lsdev heap now0 runs = Some st0 ->
  lsdev !! i = Some name ->
  runs i = SIGALRM_fired ->
  netif_devices st0 !! i
  = Some {| enabled := false; last_read := heap i;
            threshold := MIN_THRESHOLD; devName := name |}
  /\ (forall k,
        table k st0 !! i
        = Some {| last_value := zero; curr_value := zero; last_total_value := 0 |})
  /\ (forall k now run, netif_func k i now run st0 = Some (minus_one, st0))
  /\ (forall j name' f,
        lsdev !! j = Some name' -> runs j = entstat_done f ->
        netif_devices st0 !! j
        = Some {| enabled := true; last_read := now0;
                  threshold := MIN_THRESHOLD; devName := name' |}).
Proof.
  intros Hinit Hn Hrun.
  destruct (ibmnet_metric_init_lookup _ _ _ _ _ Hinit) as (_ & Ht & Hd).
  assert (Hdev : netif_devices st0 !! i
                 = Some {| enabled := false; last_read := heap i;
                           threshold := MIN_THRESHOLD; devName := name |})
    by (rewrite (Hd i name Hn), Hrun; reflexivity).
  split; [exact Hdev|]. split; [|split].
  - intros k. rewrite Ht. pose proof (lookup_lt_Some _ _ _ Hn).
    case_decide; [|lia]. unfold init_perf. now rewrite Hrun.
  - intros k now run. eapply netif_func_disabled; [exact Hdev|reflexivity].
  - intros j name' f Hj Hf. rewrite (Hd j name' Hj), Hf. reflexivity.
Qed.

(** ** One sample serves a whole polling round *)

(** X15. After a metric function of any kind has resampled a device at
    [now], a call for any of the four kinds of that device at a time [now']
    with [now' - now <= threshold] does not run entstat again: it leaves the
    state as it is and returns the rate that the one sample gave that kind. *)
Theorem X15_one_sample_per_round k i now f c st d now' :
  wf_state st ->
  netif_devices st !! i = Some d ->
  enabled d = true ->
  gtb (time_diff d now) (threshold d) = true ->
  read_counters f = Some c ->
  leb (sub now' now) (threshold d) = true ->
  exists v st',
    netif_func k i now (entstat_done f) st = Some (v, st')
    /\ entstat_calls st' = i :: entstat_calls st
    /\ forall k' run', exists p',
        table k' st' !! i = Some p'
        /\ netif_func k' i now' run' st' = Some (curr_value p', st')
        /\ (forall p, table k' st !! i = Some p -> counter k' c <> -1 ->
                      p' = rate_update (counter k' c) (time_diff d now) p).
Proof.
  intros Hwf Hd He Ht Hc Hle.
  destruct (netif_func_sampled k i now f c st d Hwf Hd He Ht Hc)
    as (p1 & _ & Hf & _ & Hwf1 & Hd1).
  do 2 eexists. split; [exact Hf|]. split; [reflexivity|].
  intros k' run'.
  destruct (netif_func_sampled k' i now f c st d Hwf Hd He Ht Hc)
    as (p' & Hp' & _ & Hval & _ & _).
  exists p'. split; [exact Hp'|]. split.
  - eapply netif_func_cached; [exact Hd1|exact He| |exact Hp'].
    apply leb_not_gtb. exact Hle.
  - intros p Hp Hraw. rewrite (Hval p Hp), (raw_available _ Hraw). reflexivity.
Qed.

(** ** The call in which the timeout happens *)

(** X16. The call of a metric function during which SIGALRM disables the
    device still returns the cached [curr_value] of its kind, not -1.0;
    every call for that device after it returns -1.0. *)
Theorem X16_timeout_call_returns_cached k i now st d p :
  netif_devices st !! i = Some d ->
  enabled d = true ->
  gtb (time_diff d now) (threshold d) = true ->
  table k st !! i = Some p ->
  exists st',
    netif_func k i now SIGALRM_fired st = Some (curr_value p, st')
    /\ forall k' now' run', netif_func k' i now' run' st' = Some (minus_one, st').
Proof.
  intros Hd He Ht Hp. pose proof (lookup_lt_Some _ _ _ Hd) as Hi.
  exists (disabled_state i st). split.
  - rewrite (netif_func_resample k i now _ st d Hd He Ht).
    rewrite read_device_alarm by exact Hi. cbn [mbind option_bind].
    rewrite table_disabled_state, Hp. reflexivity.
  - intros k' now' run'. eapply netif_func_disabled with (d := set_enabled false d).
    + cbn. now rewrite list_lookup_alter_eq, Hd.
    + reflexivity.
Qed.

Lemma X10_witness :
  exists v1 st1 st2,
    netif_func BYTES_RECEIVED 0 (of_Z 110) (entstat_done Demo.more) Demo.after_init
    = Some (v1, st1)
    /\ netif_func BYTES_RECEIVED 0 (of_Z 120)
         (entstat_done (popen_stream ["9 11" ++ newline; "700 5000" ++ newline]%string))
         st1
       = Some (of_Z 200, st2).
Proof.
  refine (X10_rate_between_two_samples BYTES_RECEIVED 0 (of_Z 110) (of_Z 120)
            Demo.more
            (popen_stream ["9 11" ++ newline; "700 5000" ++ newline]%string)
            Demo.more_counters
            {| c_bytes_received := 5000; c_bytes_sent := 700;
               c_pkts_received := 11; c_pkts_sent := 9 |}
            Demo.after_init Demo.ent0 wf_after_init _ _ _ _ _ _ _ _ _);
    try reflexivity; try discriminate.
  cbn. lia.
Defined.

Lemma X11_witness :
  exists v1 st1 st2,
    netif_func PKTS_SENT 0 (of_Z 110) (entstat_done Demo.more) Demo.after_init
    = Some (v1, st1)
    /\ netif_func PKTS_SENT 0 (of_Z 120) (entstat_done Demo.more) st1
       = Some (zero, st2).
Proof.
  refine (X11_idle_counter_rate_zero PKTS_SENT 0 (of_Z 110) (of_Z 120)
            Demo.more Demo.more Demo.more_counters Demo.more_counters
            Demo.after_init Demo.ent0 wf_after_init _ _ _ _ _ _ _ _ _ _);
    try reflexivity; discriminate.
Defined.

Lemma X12_witness :
  devName <$> netif_devices Demo.after_c2_c3 = ["ent0"%string]
  /\ threshold <$> netif_devices Demo.after_c2_c3
     = replicate (length ["ent0"%string]) MIN_THRESHOLD
  /\ (forall k, length (table k Demo.after_c2_c3) = length ["ent0"%string])
  /\ ibmnet_metrics_info 28 (netif_devices Demo.after_c2_c3)
     = ibmnet_metrics_info 28
         (detect_and_verify_netif_devices ["ent0"%string] (fun _ => S754_nan)).
Proof.
  refine (X12_registry_fixed 28 ["ent0"%string] (fun _ => S754_nan) (of_Z 100)
            (fun _ => Demo.out ("7 9" ++ Demo.nl) ("500 1000" ++ Demo.nl))
            Demo.after_init [Demo.c2; Demo.c3] [of_Z 200; of_Z 200]
            Demo.after_c2_c3 _ _);
    reflexivity.
Defined.

Lemma X13_witness : entstat_calls Demo2.after_hang = [1; 0]%nat.
Proof.
  refine (X13_init_samples_each_device_once ["ent0"; "ent1"]%string Demo2.no_heap
            (of_Z 100) Demo2.hang_first Demo2.after_hang _).
  reflexivity.
Defined.

Lemma X14_witness :
  netif_devices Demo2.after_hang !! 0%nat
  = Some {| enabled := false; last_read := S754_nan;
            threshold := MIN_THRESHOLD; devName := "ent0" |}
  /\ (forall k,
        table k Demo2.after_hang !! 0%nat
        = Some {| last_value := zero; curr_value := zero; last_total_value := 0 |})
  /\ (forall k now run,
        netif_func k 0 now run Demo2.after_hang = Some (minus_one, Demo2.after_hang))
  /\ (forall j name' f,
        ["ent0"; "ent1"]%string !! j = Some name' ->
        Demo2.hang_first j = entstat_done f ->
        netif_devices Demo2.after_hang !! j
        = Some {| enabled := true; last_read := of_Z 100;
                  threshold := MIN_THRESHOLD; devName := name' |}).
Proof.
  refine (X14_timeout_at_startup ["ent0"; "ent1"]%string Demo2.no_heap (of_Z 100)
            Demo2.hang_first Demo2.after_hang 0 "ent0" _ _ _);
    reflexivity.
Defined.

Lemma X15_witness :
  exists v st',
    netif_func BYTES_RECEIVED 0 (of_Z 110) (entstat_done Demo.more) Demo.after_init
    = Some (v, st')
    /\ entstat_calls st' = 0%nat :: entstat_calls Demo.after_init
    /\ forall k' run', exists p',
        table k' st' !! 0%nat = Some p'
        /\ netif_func k' 0 (of_Z 112) run' st' = Some (curr_value p', st')
        /\ (forall p, table k' Demo.after_init !! 0%nat = Some p ->
                      counter k' Demo.more_counters <> -1 ->
                      p' = rate_update (counter k' Demo.more_counters)
                             (time_diff Demo.ent0 (of_Z 110)) p).
Proof.
  refine (X15_one_sample_per_round BYTES_RECEIVED 0 (of_Z 110) Demo.more
            Demo.more_counters Demo.after_init Demo.ent0 (of_Z 112)
            wf_after_init _ _ _ _ _);
    reflexivity.
Defined.

Lemma X16_witness :
  exists st',
    netif_func BYTES_SENT 0 (of_Z 110) SIGALRM_fired Demo.after_init
    = Some (zero, st')
    /\ forall k' now' run', netif_func k' 0 now' run' st' = Some (minus_one, st').
Proof.
  refine (X16_timeout_call_returns_cached BYTES_SENT 0 (of_Z 110) Demo.after_init
            Demo.ent0
            {| last_value := of_Z 500; curr_value := zero; last_total_value := 500 |}
            _ _ _ _);
    reflexivity.
Defined.

(** ** The delta of two counters that were read *)

(** X17. [strtoll] clamps what it reads to the range of [long long], so for
    two counters read from the pipeline that are not negative the
    subtraction [raw2 - raw1] in [read_device] never wraps around: the delta
    is the mathematical difference, and it is negative exactly when the
    counter went down. *)
Theorem X17_delta_of_read_counters_exact k f1 f2 c1 c2 :
  read_counters f1 = Some c1 ->
  read_counters f2 = Some c2 ->
  0 <= counter k c1 ->
  0 <= counter k c2 ->
  sub_ll (counter k c2) (counter k c1) = counter k c2 - counter k c1
  /\ (sub_ll (counter k c2) (counter k c1) <? 0) = (counter k c2 <? counter k c1).
Proof.
  intros H1 H2 Hn1 Hn2.
  pose proof (read_counters_in_ll f1 c1 k H1) as [_ Hmax1].
  pose proof (read_counters_in_ll f2 c2 k H2) as [_ Hmax2].
  assert (E : sub_ll (counter k c2) (counter k c1) = counter k c2 - counter k c1)
    by (apply sub_ll_exact; unfold in_ll, LLONG_MIN, LLONG_MAX in *; lia).
  split; [exact E|]. rewrite E.
  destruct (Z.ltb_spec (counter k c2 - counter k c1) 0),
           (Z.ltb_spec (counter k c2) (counter k c1)); lia || reflexivity.
Qed.

Lemma X17_witness :
  sub_ll (counter BYTES_RECEIVED Demo.fewer_counters)
         (counter BYTES_RECEIVED Demo.more_counters)
  = counter BYTES_RECEIVED Demo.fewer_counters
    - counter BYTES_RECEIVED Demo.more_counters
  /\ (sub_ll (counter BYTES_RECEIVED Demo.fewer_counters)
             (counter BYTES_RECEIVED Demo.more_counters) <? 0)
     = (counter BYTES_RECEIVED Demo.fewer_counters
        <? counter BYTES_RECEIVED Demo.more_counters).
Proof.
  refine (X17_delta_of_read_counters_exact BYTES_RECEIVED Demo.more Demo.fewer
            Demo.more_counters Demo.fewer_counters _ _ _ _);
    try reflexivity; discriminate.
Defined.
